(** * Energy Power Dashboard (app.py): the in-memory data model

    A shallow embedding of the data-handling core of [app.py]: the session
    state, the append callback, the grid commit, the statistics and plot
    preparation helpers and the snapshot history, followed by the
    properties established about them.

    Conventions of the embedding.
    - A Python [float] is an IEEE 754 binary64 value, [spec_float] at
      precision 53 and maximal exponent 1024; comparisons are the IEEE ones
      (every comparison with NaN is false).
    - A Python [str] is a [string]; only ASCII white space and ASCII digits
      are recognised by [strip] and [float].
    - A [DataFrame] is an object in a store: the session and the history
      hold references to it, [copy] allocates. Its two columns,
      ["Date Time"] and ["Power"], are always present.
    - [datetime.now()] is an input of the operations that read the clock. *)

From Stdlib Require Import ZArith String Ascii.
From Stdlib Require Import SpecFloat.
From stdpp Require Import gmap list sorting strings.

Local Open Scope string_scope.
Local Open Scope Z_scope.
Local Open Scope list_scope.

(** ** Python floats *)

Module PyFloat.

Definition float := spec_float.

Definition prec : Z := 53.
Definition emax : Z := 1024.

Definition nan : float := S754_nan.
Definition inf (neg : bool) : float := S754_infinity neg.

(** [float(z)] for a Python int [z]. *)
Definition of_Z (z : Z) : float := binary_normalize prec emax z 0 false.

Definition add : float -> float -> float := SFadd prec emax.
Definition sub : float -> float -> float := SFsub prec emax.
Definition mul : float -> float -> float := SFmul prec emax.
Definition div : float -> float -> float := SFdiv prec emax.
Definition sqrt : float -> float := SFsqrt prec emax.
Definition abs : float -> float := SFabs.

Definition ltb (x y : float) : bool := SFltb x y.
Definition leb (x y : float) : bool := SFleb x y.
Definition gtb (x y : float) : bool := SFltb y x.
Definition geb (x y : float) : bool := SFleb y x.

Definition is_nan (x : float) : bool :=
  match x with S754_nan => true | _ => false end.

Definition of_nat (n : nat) : float := of_Z (Z.of_nat n).

(** [math.floor] of a finite value; 0 on the others, which the callers
    below never pass. *)
Definition floor (x : float) : Z :=
  match x with
  | S754_finite s m e =>
      let v := if s then Zneg m else Zpos m in
      match e with
      | Zneg k => Z.shiftr v (Zpos k)
      | _ => Z.shiftl v e
      end
  | _ => 0
  end.

(** The value [m * 10^e10], with sign [neg], rounded to the nearest
    binary64 (ties to even), as [float()] does for a decimal literal. *)
Definition of_decimal (neg : bool) (m : N) (e10 : Z) : float :=
  match m with
  | N0 => S754_zero neg
  | Npos p =>
      match e10 with
      | Zneg k =>
          SFdiv prec emax (S754_finite neg p 0)
                (S754_finite false (Pos.pow 10 k) 0)
      | Z0 => binary_round prec emax neg p 0
      | Zpos k => binary_round prec emax neg (p * Pos.pow 10 k) 0
      end
  end.

End PyFloat.

Abbreviation float := PyFloat.float.

(** ** Python strings: [str.strip] and [float(str)] *)

Module PyStr.

Definition code (c : ascii) : nat := nat_of_ascii c.

(** ASCII characters for which [str.isspace] holds. *)
Definition is_space (c : ascii) : bool :=
  let n := code c in
  ((9 <=? n)%nat && (n <=? 13)%nat) || ((28 <=? n)%nat && (n <=? 32)%nat).

Definition is_digit (c : ascii) : bool :=
  let n := code c in (48 <=? n)%nat && (n <=? 57)%nat.

Definition digit_val (c : ascii) : N := N.of_nat (code c - 48).

Definition lower (c : ascii) : ascii :=
  let n := code c in
  if (65 <=? n)%nat && (n <=? 90)%nat then ascii_of_nat (n + 32) else c.

Fixpoint lstrip (l : list ascii) : list ascii :=
  match l with
  | c :: l' => if is_space c then lstrip l' else l
  | [] => []
  end.

Definition strip (s : string) : string :=
  string_of_list_ascii
    (rev (lstrip (rev (lstrip (list_ascii_of_string s))))).

(** Underscores of a numeric literal: each one must stand between two
    digits; they are then removed. *)
Fixpoint drop_underscores (prev : option ascii) (l : list ascii)
  : option (list ascii) :=
  match l with
  | [] =>
      match prev with
      | Some "_"%char => None
      | _ => Some []
      end
  | c :: l' =>
      if Ascii.eqb c "_" then
        match prev with
        | Some p => if is_digit p then drop_underscores (Some c) l' else None
        | None => None
        end
      else
        match prev with
        | Some "_"%char =>
            if is_digit c
            then option_map (cons c) (drop_underscores (Some c) l')
            else None
        | _ => option_map (cons c) (drop_underscores (Some c) l')
        end
  end.

(** The longest prefix of digits, as a number with its length, and the
    rest. *)
Fixpoint digits (acc : N) (n : nat) (l : list ascii)
  : N * nat * list ascii :=
  match l with
  | c :: l' =>
      if is_digit c then digits (10 * acc + digit_val c)%N (S n) l'
      else (acc, n, l)
  | [] => (acc, n, [])
  end.

Definition sign (l : list ascii) : bool * list ascii :=
  match l with
  | "-"%char :: l' => (true, l')
  | "+"%char :: l' => (false, l')
  | _ => (false, l)
  end.

(** The exponent part: empty, or [e] or [E], an optional sign and at
    least one digit. *)
Definition exponent (l : list ascii) : option Z :=
  match l with
  | [] => Some 0
  | c :: l' =>
      if Ascii.eqb (lower c) "e" then
        let '(neg, l'') := sign l' in
        match digits 0 0 l'' with
        | (_, O, _) => None
        | (e, _, []) => Some (if neg then - Z.of_N e else Z.of_N e)
        | _ => None
        end
      else None
  end.

(** [digits [. digits] [exponent]] with at least one digit before the
    exponent. *)
Definition decimal (neg : bool) (l : list ascii) : option float :=
  let '(ip, ni, l1) := digits 0 0 l in
  let '(m, nf, l2) :=
    match l1 with
    | "."%char :: l1' =>
        let '(m, nd, l2) := digits ip ni l1' in (m, (nd - ni)%nat, l2)
    | _ => (ip, O, l1)
    end in
  if (ni + nf =? 0)%nat then None
  else
    match exponent l2 with
    | Some e => Some (PyFloat.of_decimal neg m (e - Z.of_nat nf))
    | None => None
    end.

(** [float(s)] on a stripped string: [None] stands for [ValueError]. *)
Definition py_float (s : string) : option float :=
  let l := list_ascii_of_string s in
  match (if existsb (Ascii.eqb "_") l then drop_underscores None l
         else Some l) with
  | None => None
  | Some l =>
      let '(neg, body) := sign l in
      let word := string_of_list_ascii (map lower body) in
      if String.eqb word "inf" || String.eqb word "infinity"
      then Some (PyFloat.inf neg)
      else if String.eqb word "nan" then Some PyFloat.nan
      else decimal neg body
  end.

(** [datetime.strptime(s, "%Y-%m-%d %H:%M:%S")] as seconds since
    1970-01-01 00:00:00: the format the append callback writes. *)
Definition num2 (a b : ascii) : option Z :=
  if is_digit a && is_digit b
  then Some (Z.of_N (10 * digit_val a + digit_val b))
  else None.

Definition is_leap (y : Z) : bool :=
  ((y mod 4 =? 0) && negb (y mod 100 =? 0)) || (y mod 400 =? 0).

Definition days_in_month (y m : Z) : Z :=
  if m =? 2 then (if is_leap y then 29 else 28)
  else if (m =? 4) || (m =? 6) || (m =? 9) || (m =? 11) then 30
  else 31.

(** Days from 1970-01-01 to the given civil date. *)
Definition days_from_civil (y m d : Z) : Z :=
  let y := if m <=? 2 then y - 1 else y in
  let era := y / 400 in
  let yoe := y - era * 400 in
  let doy := (153 * (if 2 <? m then m - 3 else m + 9) + 2) / 5 + d - 1 in
  let doe := yoe * 365 + yoe / 4 - yoe / 100 + doy in
  era * 146097 + doe - 719468.

Definition strptime (s : string) : option Z :=
  match list_ascii_of_string s with
  | [y1; y2; y3; y4; "-"; m1; m2; "-"; d1; d2; " ";
     h1; h2; ":"; i1; i2; ":"; s1; s2]%char =>
      match num2 y1 y2, num2 y3 y4, num2 m1 m2, num2 d1 d2,
            num2 h1 h2, num2 i1 i2, num2 s1 s2 with
      | Some yh, Some yl, Some mo, Some d, Some h, Some mi, Some se =>
          let y := 100 * yh + yl in
          if (1 <=? y) && (1 <=? mo) && (mo <=? 12) && (1 <=? d)
             && (d <=? days_in_month y mo) && (h <=? 23) && (mi <=? 59)
             && (se <=? 59)
          then Some (((days_from_civil y mo d * 24 + h) * 60 + mi) * 60 + se)
          else None
      | _, _, _, _, _, _, _ => None
      end
  | _ => None
  end.

End PyStr.

(** ** pandas: a numeric [Series] and its reductions

    The reductions follow the algorithms of pandas and NumPy for a
    one-dimensional float64 series without missing values: the mean is
    the sum over the count, the variance is the two-pass one, the median
    is the mean of the middle of the sorted values and a quantile
    interpolates linearly between the two order statistics around the
    position [(n - 1) * q]. The sum of an array and the window kernel of
    [rolling] round as the libraries add, and are inputs. *)

Module Series.

Import PyFloat.

Definition t := list float.

(** The order of [sort_values]: [y] is not below [x]. On values that are
    not NaN this is [x <= y]. *)
Definition fle (x y : float) : Prop := ltb y x = false.

#[global] Instance fle_dec x y : Decision (fle x y).
Proof. unfold fle. apply _. Defined.

Definition notna (x : float) : bool := negb (is_nan x).

Definition dropna (s : t) : t := List.filter notna s.

Definition empty (s : t) : bool :=
  match s with [] => true | _ => false end.

Definition count (s : t) : nat := length (dropna s).

(** The sum of an array is NumPy's [add.reduce]. The order in which it
    adds, and so the rounding of the result, is the library's: the
    reductions below take it as their argument [sum]. [left_sum] adds
    from left to right and serves in the examples. *)
Definition left_sum (s : t) : float :=
  match s with
  | [] => S754_zero false
  | x :: s' => foldl add x s'
  end.

(** [nanmean]: the sum over the count. *)
Definition mean (sum : t -> float) (s : t) : float :=
  div (sum s) (of_nat (length s)).

(** [nanvar]: the squared distances to the mean, summed, over
    [count - ddof]. *)
Definition var (sum : t -> float) (ddof : nat) (s : t) : float :=
  let avg := mean sum s in
  let sqr := map (fun x => let d := sub avg x in mul d d) s in
  div (sum sqr) (of_Z (Z.of_nat (length s) - Z.of_nat ddof)).

Definition std (sum : t -> float) (ddof : nat) (s : t) : float :=
  sqrt (var sum ddof s).

(** The least and the greatest value. Of values that compare equal, as
    0.0 and -0.0 do, the first one met is kept here; which one NumPy
    returns is up to its loop. *)
Definition min (s : t) : float :=
  match s with
  | [] => nan
  | x :: s' => foldl (fun m y => if ltb y m then y else m) x s'
  end.

Definition max (s : t) : float :=
  match s with
  | [] => nan
  | x :: s' => foldl (fun m y => if ltb m y then y else m) x s'
  end.

Definition sort_values (s : t) : t := merge_sort fle s.

Definition at_ (s : t) (i : nat) : float := default nan (s !! i).

(** The middle of a sorted array: one value when the length is odd, two
    when it is even. *)
Definition middle (a : t) : t :=
  let index := (length a / 2)%nat in
  if Nat.odd (length a) then take 1 (drop index a)
  else take 2 (drop (index - 1) a).

(** [nanmedian]: the mean of the middle of the sorted values. *)
Definition median (sum : t -> float) (s : t) : float :=
  let a := sort_values s in
  match a with
  | [] => nan
  | _ => mean sum (middle a)
  end.

(** Linear interpolation between [a] and [b] at [t], computed from the
    nearer end. *)
Definition lerp (a b t : float) : float :=
  let diff_b_a := sub b a in
  if geb t (of_decimal false 5 (-1))
  then sub b (mul diff_b_a (sub (of_Z 1) t))
  else add a (mul diff_b_a t).

(** The [q]-quantile read off a sorted array [a]. *)
Definition interpolate (q : float) (a : t) : float :=
  let n := length a in
  let virtual_index := mul (of_nat (n - 1)) q in
  let lo := Z.to_nat (floor virtual_index) in
  let hi := Nat.min (lo + 1) (n - 1) in
  let gamma := sub virtual_index (of_nat lo) in
  lerp (at_ a lo) (at_ a hi) gamma.

Definition quantile (q : float) (s : t) : float :=
  let a := sort_values s in
  match a with
  | [] => nan
  | _ => interpolate q a
  end.

(** The bounds of the window of position [i] under
    [rolling(window, center=True)]: those of a fixed window ending
    [offset] places after [i], clipped to the series. *)
Definition window_bounds (window n i : nat) : nat * nat :=
  let offset := ((window - 1) / 2)%nat in
  let end_ := (i + 1 + offset)%nat in
  let start := (end_ - window)%nat in
  (Nat.min start n, Nat.min end_ n).

Definition slice (start end_ : nat) (s : t) : t :=
  take (end_ - start) (drop start s).

Definition is_inf (x : float) : bool :=
  match x with S754_infinity _ => true | _ => false end.

(** The values as the window code receives them: infinities are turned
    into NaN first. *)
Definition prep_values (s : t) : t :=
  map (fun x => if is_inf x then nan else x) s.

(** [s.rolling(window, center=True, min_periods).mean()]. The averages
    are taken by the library's window kernel, which is handed the
    values, the bounds of every window and [min_periods];
    [roll_mean values bounds minp i] is entry [i] of the array it
    returns. *)
Definition rolling_mean
    (roll_mean : t -> list (nat * nat) -> nat -> nat -> float)
    (window min_periods : nat) (s : t) : t :=
  let n := length s in
  let bounds := map (window_bounds window n) (seq 0 n) in
  map (roll_mean (prep_values s) bounds min_periods) (seq 0 n).

(** *** The window kernel of pandas 2

    A running sum with Kahan compensation: from one window to the next
    the values that leave are taken off and the values that enter are
    added. *)

Record window_state := WindowState {
  nobs : Z;
  sum_x : float;
  neg_ct : Z;
  compensation_add : float;
  compensation_remove : float;
  num_consecutive_same_value : Z;
  prev_value : float
}.

Definition signbit (x : float) : bool :=
  match x with
  | S754_zero s | S754_infinity s | S754_finite s _ _ => s
  | S754_nan => false
  end.

Definition add_mean (w : window_state) (val : float) : window_state :=
  if is_nan val then w
  else
    let y := sub val (compensation_add w) in
    let t := add (sum_x w) y in
    {| nobs := nobs w + 1;
       sum_x := t;
       neg_ct := if signbit val then neg_ct w + 1 else neg_ct w;
       compensation_add := sub (sub t (sum_x w)) y;
       compensation_remove := compensation_remove w;
       num_consecutive_same_value :=
         if SFeqb val (prev_value w)
         then num_consecutive_same_value w + 1 else 1;
       prev_value := val |}.

Definition remove_mean (w : window_state) (val : float) : window_state :=
  if is_nan val then w
  else
    let y := sub (SFopp val) (compensation_remove w) in
    let t := add (sum_x w) y in
    {| nobs := nobs w - 1;
       sum_x := t;
       neg_ct := if signbit val then neg_ct w - 1 else neg_ct w;
       compensation_add := compensation_add w;
       compensation_remove := sub (sub t (sum_x w)) y;
       num_consecutive_same_value := num_consecutive_same_value w;
       prev_value := prev_value w |}.

Definition calc_mean (minp : nat) (w : window_state) : float :=
  if (Z.of_nat minp <=? nobs w) && (0 <? nobs w) then
    let result := div (sum_x w) (of_Z (nobs w)) in
    if nobs w <=? num_consecutive_same_value w then prev_value w
    else if (neg_ct w =? 0) && ltb result (S754_zero false)
    then S754_zero false
    else if (neg_ct w =? nobs w) && gtb result (S754_zero false)
    then S754_zero false
    else result
  else nan.

Fixpoint is_monotonic_increasing (l : list nat) : bool :=
  match l with
  | x :: (y :: _) as l' => (x <=? y)%nat && is_monotonic_increasing l'
  | _ => true
  end.

Definition setup (values : t) (start end_ : nat) : window_state :=
  foldl add_mean
        {| nobs := 0; sum_x := S754_zero false; neg_ct := 0;
           compensation_add := S754_zero false;
           compensation_remove := S754_zero false;
           num_consecutive_same_value := 0;
           prev_value := at_ values start |}
        (slice start end_ values).

(** One turn of the loop over the windows: the state, the bounds of the
    window before and the output so far. *)
Definition roll_mean_step (values : t) (monotonic : bool) (minp : nat)
    (acc : window_state * option (nat * nat) * list float)
    (bound : nat * nat) : window_state * option (nat * nat) * list float :=
  let '(w, before, output) := acc in
  let '(s, e) := bound in
  let w :=
    match before with
    | Some (s0, e0) =>
        if monotonic && (s <? e0)%nat
        then foldl add_mean (foldl remove_mean w (slice s0 s values))
                   (slice e0 e values)
        else setup values s e
    | None => setup values s e
    end in
  let result := calc_mean minp w in
  let w :=
    if monotonic then w
    else {| nobs := 0; sum_x := S754_zero false; neg_ct := 0;
            compensation_add := compensation_add w;
            compensation_remove := S754_zero false;
            num_consecutive_same_value := num_consecutive_same_value w;
            prev_value := prev_value w |} in
  (w, Some bound, output ++ [result]).

Definition roll_mean (values : t) (bounds : list (nat * nat)) (minp : nat)
  : list float :=
  let monotonic :=
    is_monotonic_increasing (map fst bounds)
    && is_monotonic_increasing (map snd bounds) in
  snd (foldl (roll_mean_step values monotonic minp)
             (setup values 0 0, None, []) bounds).


End Series.

(** ** The table and the object store *)

Inductive cell :=
  | CNone                (* [None], an empty grid cell *)
  | CStr (s : string)    (* text typed into the grid *)
  | CNum (x : float).    (* a number, possibly NaN *)

Record row := Row { date_time : option string; power : cell }.

Abbreviation DataFrame := (list row).
Abbreviation loc := positive.
Abbreviation store := (gmap loc DataFrame).

(** [df.empty] *)
Definition empty (d : DataFrame) : bool :=
  match d with [] => true | _ => false end.

Definition read (h : store) (l : loc) : DataFrame := default [] (h !! l).

(** A new object holding [d]: [pd.DataFrame(...)], [df.copy()],
    [pd.concat(...)]. *)
Definition alloc (d : DataFrame) (h : store) : loc * store :=
  let l := fresh (dom h) in (l, <[l := d]> h).

(** ** Session state *)

Inductive message :=
  | Text (s : string)
  | Added (now : string) (power_val : float).
      (* f"Added: {now} | Power = {power_val}" *)

Definition status : Type := string * message.

Record item := Item { name : string; item_df : loc; timestamp : string }.

Record state := State {
  heap : store;
  df : loc;
  history : list item;
  edit_mode : bool;
  power_input : string;
  last_input_status : option status
}.

Definition set_status (s : status) (st : state) : state :=
  {| heap := heap st; df := df st; history := history st;
     edit_mode := edit_mode st; power_input := power_input st;
     last_input_status := Some s |}.

Definition set_df (l : loc) (h : store) (st : state) : state :=
  {| heap := h; df := l; history := history st;
     edit_mode := edit_mode st; power_input := power_input st;
     last_input_status := last_input_status st |}.

Definition set_history (hs : list item) (h : store) (st : state) : state :=
  {| heap := h; df := df st; history := hs;
     edit_mode := edit_mode st; power_input := power_input st;
     last_input_status := last_input_status st |}.

Definition set_power_input (s : string) (st : state) : state :=
  {| heap := heap st; df := df st; history := history st;
     edit_mode := edit_mode st; power_input := s;
     last_input_status := last_input_status st |}.

Definition set_edit_mode (b : bool) (st : state) : state :=
  {| heap := heap st; df := df st; history := history st;
     edit_mode := b; power_input := power_input st;
     last_input_status := last_input_status st |}.

(** Section 3 of the script: the state of a new session. *)
Definition init : state :=
  let '(l, h) := alloc [] ∅ in
  {| heap := h; df := l; history := []; edit_mode := true;
     power_input := ""; last_input_status := None |}.

(** The live table. *)
Definition table (st : state) : DataFrame := read (heap st) (df st).

(** The rows of a stored snapshot. *)
Definition snapshot (st : state) (it : item) : DataFrame :=
  read (heap st) (item_df it).

(** ** Helpers *)

Definition POWER_MIN : Z := -150.
Definition POWER_MAX : Z := 150.

(** [x < z] and [x > z] for a float [x] and an int [z]. *)
Definition lt_int (x : float) (z : Z) : bool := PyFloat.ltb x (PyFloat.of_Z z).
Definition gt_int (x : float) (z : Z) : bool := PyFloat.gtb x (PyFloat.of_Z z).

(** [s.between(left, right)], both ends included. *)
Definition between (left right : Z) (x : float) : bool :=
  PyFloat.geb x (PyFloat.of_Z left) && PyFloat.leb x (PyFloat.of_Z right).

Definition add_to_history (now : string) (d : loc) (name : string)
    (st : state) : state :=
  if empty (read (heap st) d) then st
  else
    let '(c, h) := alloc (read (heap st) d) (heap st) in
    let item := {| name := name; item_df := c; timestamp := now |} in
    set_history (take 5 (item :: history st)) h st.

Definition power_status_label (value : option float) : string * string :=
  match value with
  | None => ("⚪", "No data")
  | Some value =>
      let v := PyFloat.abs value in
      if gt_int v 120 then ("⚠️", "High power alert")
      else if gt_int v 60 then ("🟡", "Medium usage")
      else ("🟢", "Normal")
  end.

Definition handle_add_power (now : string) (st : state) : state :=
  let text := PyStr.strip (power_input st) in
  if String.eqb text "" then
    set_status ("error", Text "Please input a value.") st
  else
    match PyStr.py_float text with
    | None => set_status ("error", Text "Please input a valid number.") st
    | Some power_val =>
        if lt_int power_val POWER_MIN || gt_int power_val POWER_MAX then
          set_status ("error", Text "Power must be between -150 and 150.") st
        else
          let new_row := Row (Some now) (CNum power_val) in
          let '(l, h) := alloc (table st ++ [new_row]) (heap st) in
          set_power_input ""
            (set_status ("success", Added now power_val) (set_df l h st))
    end.

(** The "Clear data" button. *)
Definition clear_data (st : state) : state :=
  let '(l, h) := alloc [] (heap st) in
  set_status ("success", Text "All data cleared from table.") (set_df l h st).

(** The "Restore this snapshot" button of entry [i]; there is no button
    for an [i] outside the history. *)
Definition restore (i : nat) (st : state) : state :=
  match history st !! i with
  | Some item =>
      let '(l, h) := alloc (read (heap st) (item_df item)) (heap st) in
      set_df l h st
  | None => st
  end.

(** A download button of the export tab, with the base file name. *)
Definition export (now filename_base : string) (st : state) : state :=
  if empty (table st) then st
  else
    let '(df_export, h) := alloc (table st) (heap st) in
    add_to_history now df_export (String.append filename_base " (export)")
      (set_history (history st) h st).

(** ** The operations that go through pandas' parsers

    [pd.to_numeric] and [pd.to_datetime] read text with parsers of the
    library; the operations below take them as parameters:
    [str_to_float] gives the number a text cell stands for, if any;
    [str_to_datetime] gives [Some (Some t)] for a time stamp that stands
    for the instant [t], [Some None] for a text read as a missing value
    ([NaT]) and [None] for a text that makes the parser raise. *)

Module Stats.
Record t := Make {
  count : nat;
  mean : float;
  median : float;
  std : float;
  min : float;
  max : float;
  sum : float;
  q25 : float;
  q75 : float
}.
End Stats.

(** A cell of the ["Date Time"] column of the plotting frame. *)
Inductive time_cell :=
  | NaT                  (* missing: [None], [NaT] *)
  | Raw (s : string)     (* the text as it stands in the table *)
  | Stamp (t : Z).       (* a parsed instant *)

Record plot_row := PlotRow { p_date_time : time_cell; p_power : float }.

Definition time_notna (c : time_cell) : bool :=
  match c with NaT => false | _ => true end.

(** The order [sort_values] puts the column in: instants by time, text
    by code points, missing values last. A column holds either instants
    or text, never both. *)
Definition time_leb (a b : time_cell) : bool :=
  match a, b with
  | _, NaT => true
  | NaT, _ => false
  | Stamp t, Stamp u => t <=? u
  | Raw s, Raw u => String.leb s u
  | Stamp _, Raw _ => true
  | Raw _, Stamp _ => false
  end.

Definition row_le (a b : plot_row) : Prop :=
  time_leb (p_date_time a) (p_date_time b) = true.

#[global] Instance row_le_dec a b : Decision (row_le a b).
Proof. unfold row_le. apply _. Defined.

(** The chart controls. *)
Record controls := Controls {
  sort_time : bool;
  power_range : Z * Z;
  smoothing_enabled : bool;
  smoothing_window : nat
}.

(** The controls as the widgets first show them. *)
Definition default_controls : controls :=
  {| sort_time := true; power_range := (POWER_MIN, POWER_MAX);
     smoothing_enabled := false; smoothing_window := 5 |}.

Section App.

(** What the libraries compute in floating point. [np_sum] is the sum of
    a float64 array and [roll_mean] the window kernel of
    [rolling(...).mean()], entry by entry (see [Series]). *)
Variable np_sum : Series.t -> float.
Variable roll_mean : Series.t -> list (nat * nat) -> nat -> nat -> float.

Variable str_to_float : string -> option float.
Variable str_to_datetime : string -> option (option Z).

(** [pd.to_numeric(_, errors="coerce")] on one cell. *)
Definition to_numeric (c : cell) : float :=
  match c with
  | CNone => PyFloat.nan
  | CStr s => default PyFloat.nan (str_to_float s)
  | CNum x => x
  end.

Definition compute_power_stats (d : DataFrame) : option Stats.t :=
  let s := Series.dropna (map to_numeric (map power d)) in
  if Series.empty s then None
  else Some {|
    Stats.count := Series.count s;
    Stats.mean := Series.mean np_sum s;
    Stats.median := Series.median np_sum s;
    Stats.std :=
      if (1 <? Series.count s)%nat then Series.std np_sum 1 s
      else S754_zero false;
    Stats.min := Series.min s;
    Stats.max := Series.max s;
    Stats.sum := np_sum s;
    Stats.q25 := Series.quantile (PyFloat.of_decimal false 25 (-2)) s;
    Stats.q75 := Series.quantile (PyFloat.of_decimal false 75 (-2)) s
  |}.

(** Section 5 of the script: the value the status card is about. *)
Definition latest_val (d : DataFrame) : option float :=
  match compute_power_stats d with
  | Some _ =>
      if empty d then None
      else last (Series.dropna (map to_numeric (map power d)))
  | None => None
  end.

(** [pd.to_datetime(column)]: [None] when a cell makes it raise. *)
Definition to_datetime_cell (c : option string) : option time_cell :=
  match c with
  | None => Some NaT
  | Some s =>
      match str_to_datetime s with
      | Some (Some t) => Some (Stamp t)
      | Some None => Some NaT
      | None => None
      end
  end.

Definition to_datetime (col : list (option string))
  : option (list time_cell) :=
  mapM to_datetime_cell col.

Definition raw_time (c : option string) : time_cell :=
  match c with None => NaT | Some s => Raw s end.

Definition prepare_plot_df (d : DataFrame) : list plot_row :=
  let date_time_col :=
    match to_datetime (map date_time d) with
    | Some col => col
    | None => map raw_time (map date_time d)
    end in
  let power_col := map to_numeric (map power d) in
  List.filter (fun r => Series.notna (p_power r))
              (zip_with PlotRow date_time_col power_col).

(** The visualization tab up to the range filter; [[]] stands for the
    two places where the tab shows a notice instead of a chart. Rows with
    equal time stamps come out of the sort in the order merge sort leaves
    them in; the order pandas leaves them in is that of its own sort. *)
Definition tab_visual (c : controls) (d : DataFrame) : list plot_row :=
  let df_plot := prepare_plot_df d in
  match df_plot with
  | [] => []
  | _ =>
      let df_plot :=
        List.filter (fun r => time_notna (p_date_time r)
                              && Series.notna (p_power r)) df_plot in
      let df_plot :=
        if sort_time c then merge_sort row_le df_plot else df_plot in
      List.filter (fun r => between (fst (power_range c))
                                    (snd (power_range c)) (p_power r))
                  df_plot
  end.

(** The column [Power_plot] of a non-empty plotting frame. *)
Definition Power_plot (c : controls) (df_plot : list plot_row)
  : list float :=
  if smoothing_enabled c
  then Series.rolling_mean roll_mean (smoothing_window c) 1
                           (map p_power df_plot)
  else map p_power df_plot.

(** The editable table. [st.data_editor] hands back the table as the
    operator edited it, [edited]; whether as a new object or as its
    argument updated in place is left to the widget, and both are
    modelled ([as_copy]). *)
Definition data_editor (edited : DataFrame) (as_copy : bool) (st : state)
  : loc * store :=
  if as_copy then alloc edited (heap st)
  else (df st, <[df st := edited]> (heap st)).

Definition coerce_power (r : row) : row :=
  Row (date_time r) (CNum (to_numeric (power r))).

(** The warning of the editor is the second component. *)
Definition edit_table (edited : DataFrame) (as_copy : bool) (st : state)
  : state * bool :=
  if edit_mode st then
    let '(edited_df, h) := data_editor edited as_copy st in
    let h := <[edited_df := map coerce_power (read h edited_df)]> h in
    let invalid_mask :=
      map (fun r => let x := to_numeric (power r) in
                    negb (between POWER_MIN POWER_MAX x)
                    && Series.notna x)
          (read h edited_df) in
    (set_df edited_df h st, existsb id invalid_mask)
  else (st, false).

(** *** The session as a transition system *)

Inductive event :=
  | Append (now text : string)      (* text typed in the box, then Enter *)
  | ClearData
  | EditTable (edited : DataFrame) (as_copy : bool)
  | Export (now filename_base : string)
  | Restore (i : nat)
  | SetEditMode (b : bool).         (* "Edit all" and "Lock table" *)

Definition step (st : state) (ev : event) : state :=
  match ev with
  | Append now text => handle_add_power now (set_power_input text st)
  | ClearData => clear_data st
  | EditTable edited as_copy => fst (edit_table edited as_copy st)
  | Export now filename_base => export now filename_base st
  | Restore i => restore i st
  | SetEditMode b => set_edit_mode b st
  end.

Definition run (st : state) (evs : list event) : state :=
  foldl step st evs.

End App.

(** A sequence of calls of [add_to_history], each with the clock, the
    table and the name it is given. *)
Definition inserts (st : state) (calls : list (string * loc * string))
  : state :=
  foldl (fun st c => add_to_history c.1.1 c.1.2 c.2 st) st calls.

(** ** Vocabulary of the specification *)

(** The statuses of the append callback, under the names of the
    specification's error taxonomy. *)
Definition EmptyInput : status := ("error", Text "Please input a value.").

(** The severities, as the labels of the status card. *)
Definition Unknown : string * string := ("⚪", "No data").
Definition High : string * string := ("⚠️", "High power alert").
Definition Medium : string * string := ("🟡", "Medium usage").
Definition Normal : string * string := ("🟢", "Normal").

(** Nothing but the status differs between two states. *)
Definition same_but_status (st st' : state) : Prop :=
  heap st' = heap st /\ df st' = df st /\ history st' = history st
  /\ edit_mode st' = edit_mode st /\ power_input st' = power_input st.


(** The live table is an object of the store, and so is every snapshot,
    which is never the live table itself. *)
Definition wf (st : state) : Prop :=
  is_Some (heap st !! df st)
  /\ Forall (fun it => is_Some (heap st !! item_df it)
                       /\ item_df it <> df st) (history st).



(** Concrete parsers, for the examples: numbers as Python reads them,
    time stamps in the format the append callback writes, the empty text
    standing for a missing value. *)
Definition example_to_float (s : string) : option float :=
  PyStr.py_float (PyStr.strip s).

Definition example_to_datetime (s : string) : option (option Z) :=
  if String.eqb s "" then Some None
  else option_map Some (PyStr.strptime s).

(** The table a call of [add_to_history] is given. *)
Definition call_rows (st : state) (c : string * loc * string) : DataFrame :=
  read (heap st) c.1.2.

(** Six tables of one row each, in a store, and six calls of
    [add_to_history], one for each. *)
Definition six_tables : list DataFrame :=
  map (fun z => [Row (Some "2024-01-01 10:00:00") (CNum (PyFloat.of_Z z))])
      [1; 2; 3; 4; 5; 6].

Definition six_state : state :=
  {| heap := list_to_map (zip [1; 2; 3; 4; 5; 6]%positive six_tables);
     df := 1%positive; history := []; edit_mode := true;
     power_input := ""; last_input_status := None |}.

Definition six_calls : list (string * loc * string) :=
  map (fun l => ("2024-01-02 10:00:00", l, "power_data (export)"))
      [1; 2; 3; 4; 5; 6]%positive.

(** A short session: one entry, one export; and what the operator does
    next. The export stored the snapshot [stored_item]. *)
Definition session_events : list event :=
  [Append "2024-01-01 10:00:00" "10";
   Export "2024-01-01 10:05:00" "power_data"].

Definition later_events : list event :=
  [Append "2024-01-01 10:06:00" "20";
   EditTable [Row (Some "2024-01-01 10:00:00") (CStr "abc")] false;
   ClearData;
   Restore 0;
   EditTable [Row None (CNum (PyFloat.of_Z 7))] false].

Definition stored_item : item :=
  Item "power_data (export)" 4%positive "2024-01-01 10:05:00".

(** An edited table: a row left as it was, a row with a text that is not
    a number, a row without a value and a row out of range. *)
Definition edited_example : DataFrame :=
  [Row (Some "2024-01-01 10:00:00") (CNum (PyFloat.of_Z 10));
   Row (Some "2024-01-01 10:01:00") (CStr "abc");
   Row None CNone;
   Row (Some "2024-01-01 10:03:00") (CStr "200")].

(** A cell that holds a float, NaN included. *)
Definition is_float_cell (c : cell) : bool :=
  match c with CNum _ => true | _ => false end.

(** The rows whose value coerces to a number, and their values. *)
Definition numeric_rows (str_to_float : string -> option float)
    (d : DataFrame) : DataFrame :=
  List.filter (fun r => Series.notna (to_numeric str_to_float (power r))) d.

Definition numeric_values (str_to_float : string -> option float)
    (d : DataFrame) : Series.t :=
  map (fun r => to_numeric str_to_float (power r))
      (numeric_rows str_to_float d).





Definition stats_single : DataFrame :=
  [Row (Some "2024-01-01 10:00:00") (CStr "abc");
   Row (Some "2024-01-01 10:01:00") (CNum (PyFloat.of_Z 10));
   Row None CNone].



(** The row has a value that coerces to a number. *)
Definition value_ok (str_to_float : string -> option float) (r : row)
  : bool :=
  Series.notna (to_numeric str_to_float (power r)).

(** The row has a time stamp that coerces to an instant. *)
Definition time_ok (str_to_datetime : string -> option (option Z))
    (r : row) : bool :=
  match date_time r with
  | Some s =>
      match str_to_datetime s with Some (Some _) => true | _ => false end
  | None => false
  end.

(** Some time stamp of the table makes [pd.to_datetime] raise. *)
Definition raises (str_to_datetime : string -> option (option Z))
    (d : DataFrame) : bool :=
  existsb (fun r => match date_time r with
                    | Some s =>
                        match str_to_datetime s with
                        | None => true
                        | Some _ => false
                        end
                    | None => false
                    end) d.

(** The time stamp of a row as the plotting frame of [d] holds it: the
    text as it stands when the conversion of the column raised, the parsed
    value otherwise. *)
Definition plot_time (str_to_datetime : string -> option (option Z))
    (d : DataFrame) (r : row) : time_cell :=
  if raises str_to_datetime d then raw_time (date_time r)
  else default NaT (to_datetime_cell str_to_datetime (date_time r)).

Definition plot_of (str_to_float : string -> option float)
    (str_to_datetime : string -> option (option Z))
    (d : DataFrame) (r : row) : plot_row :=
  PlotRow (plot_time str_to_datetime d r) (to_numeric str_to_float (power r)).

(** The rows of [d] that reach the chart. *)
Definition kept (str_to_float : string -> option float)
    (str_to_datetime : string -> option (option Z))
    (c : controls) (d : DataFrame) (r : row) : bool :=
  value_ok str_to_float r
  && time_notna (plot_time str_to_datetime d r)
  && between (power_range c).1 (power_range c).2
             (to_numeric str_to_float (power r)).

(** A table with a time stamp that does not parse, and a table out of
    order. *)
Definition garbage_table : DataFrame :=
  [Row (Some "2024-01-02 10:00:00") (CNum (PyFloat.of_Z 10));
   Row (Some "garbage") (CNum (PyFloat.of_Z 20))].

Definition unordered_table : DataFrame :=
  [Row (Some "2024-01-02 10:00:00") (CNum (PyFloat.of_Z 1));
   Row (Some "2024-01-01 10:00:00") (CStr "2");
   Row (Some "") (CNum (PyFloat.of_Z 9));
   Row (Some "2024-01-03 10:00:00") (CStr "abc");
   Row (Some "2024-01-01 09:00:00") (CNum (PyFloat.of_Z 3))].

(** The row has a time stamp, whatever it is. *)
Definition time_present (r : row) : bool :=
  match date_time r with Some _ => true | None => false end.




(** ** More of the script

    The parts of [app.py] around the operations above: the
    initialisation of the session state, the marker subsets of the chart
    and what a call of the append callback accepts. *)

(** A value of [st.session_state], which is a dictionary. *)
Inductive value :=
  | VDataFrame (l : loc)
  | VHistory (h : list item)
  | VBool (b : bool)
  | VStr (s : string)
  | VStatus (s : option status).

(** [if k not in st.session_state: st.session_state[k] = v] *)
Definition setdefault (k : string) (v : value) (ss : gmap string value)
  : gmap string value :=
  match ss !! k with
  | Some _ => ss
  | None => <[k := v]> ss
  end.

(** Section 3 of the script, run at the start of every script run; the
    empty table is built only when the key ["df"] is missing. *)
Definition init_session_state (ss : gmap string value) (h : store)
  : gmap string value * store :=
  let '(ss, h) :=
    match ss !! "df" with
    | Some _ => (ss, h)
    | None => let '(l, h') := alloc [] h in (<["df" := VDataFrame l]> ss, h')
    end in
  (setdefault "last_input_status" (VStatus None)
     (setdefault "power_input" (VStr "")
        (setdefault "edit_mode" (VBool true)
           (setdefault "history" (VHistory []) ss))), h).

(** The session state as the record the operations work on. *)
Definition state_of (ss : gmap string value) (h : store) : option state :=
  match ss !! "df", ss !! "history", ss !! "edit_mode",
        ss !! "power_input", ss !! "last_input_status" with
  | Some (VDataFrame l), Some (VHistory hs), Some (VBool b),
    Some (VStr s), Some (VStatus u) =>
      Some {| heap := h; df := l; history := hs; edit_mode := b;
              power_input := s; last_input_status := u |}
  | _, _, _, _, _ => None
  end.

(** The marker subsets of the chart: [df_plot[df_plot["Power"] >= 0]] and
    [df_plot[df_plot["Power"] < 0]]. *)
Definition df_pos (df_plot : list plot_row) : list plot_row :=
  List.filter (fun r => PyFloat.geb (p_power r) (PyFloat.of_Z 0)) df_plot.

Definition df_neg (df_plot : list plot_row) : list plot_row :=
  List.filter (fun r => lt_int (p_power r) 0) df_plot.

(** The value a call of the append callback stores for the content
    [text] of the input box, if it stores one. *)
Definition accepted_value (text : string) : option float :=
  match PyStr.py_float (PyStr.strip text) with
  | Some v =>
      if String.eqb (PyStr.strip text) "" then None
      else if lt_int v POWER_MIN || gt_int v POWER_MAX then None
      else Some v
  | None => None
  end.

(** The row a call at the instant [now] adds. *)
Definition accepted_row (input : string * string) : option row :=
  option_map (fun v => Row (Some input.1) (CNum v)) (accepted_value input.2).

Definition is_export (ev : event) : bool :=
  match ev with Export _ _ => true | _ => false end.

(** Only white space. *)
Definition blank (l : list ascii) : Prop :=
  Forall (fun c => PyStr.is_space c = true) l.

(** Inputs of the append callback: padded text, and a run of entries. *)
Definition padded_input : string :=
  String "009"%char (String.append " 150 " (String "010"%char "")).

Definition entries : list (string * string) :=
  [("2024-01-01 10:00:00", "10"); ("2024-01-01 10:00:01", "abc");
   ("2024-01-01 10:00:02", " -150 "); ("2024-01-01 10:00:03", "151");
   ("2024-01-01 10:00:04", "nan"); ("2024-01-01 10:00:05", "")].

(** A table with a negative value, a zero and a positive value, and the
    session state of a session that is under way, the table locked. *)
Definition signed_table : DataFrame :=
  [Row (Some "2024-01-01 10:00:00") (CNum (PyFloat.of_Z (-5)));
   Row (Some "2024-01-01 10:00:01") (CNum (PyFloat.of_Z 0));
   Row (Some "2024-01-01 10:00:02") (CNum (PyFloat.of_Z 7))].

Definition running_session : gmap string value :=
  <["df" := VDataFrame 1%positive]> (<["edit_mode" := VBool false]> ∅).

Definition running_store : store := <[1%positive := signed_table]> ∅.

(** * Properties *)

(** ** Floats: comparisons *)

Lemma SFcompare_antisym (x y : float) :
  SFcompare y x = option_map CompOpp (SFcompare x y).
Proof.
  destruct x as [sx|sx| |sx mx ex], y as [sy|sy| |sy my ey];
    try destruct sx; try destruct sy; try reflexivity;
    cbn; rewrite (Z.compare_antisym ey ex);
    destruct (ey ?= ex); cbn; try reflexivity;
    rewrite !Pos.compare_cont_spec; cbn;
    rewrite (Pos.compare_antisym my mx);
    destruct (my ?= mx)%positive; reflexivity.
Qed.

(** Among comparable values, [x > y] is the negation of [x <= y]. *)
Lemma gtb_negb_leb (x y : float) :
  PyFloat.is_nan x = false -> PyFloat.is_nan y = false ->
  PyFloat.gtb x y = negb (PyFloat.leb x y).
Proof.
  intros Hx Hy. unfold PyFloat.gtb, PyFloat.leb, SFltb, SFleb.
  rewrite (SFcompare_antisym x y).
  destruct (SFcompare x y) as [[]|] eqn:E; try reflexivity.
  destruct x as [[]|[]| |[]], y as [[]|[]| |[]]; discriminate.
Qed.

Lemma gtb_true_notnan (x y : float) :
  PyFloat.gtb x y = true -> PyFloat.is_nan x = false.
Proof. destruct x; [reflexivity..| |reflexivity]. destruct y; discriminate. Qed.

Lemma SFltb_irrefl (x : float) : SFltb x x = false.
Proof.
  destruct x as [[]|[]| |[] m e]; try reflexivity; unfold SFltb; cbn;
    rewrite Z.compare_refl, Pos.compare_cont_spec, Pos.compare_refl;
    reflexivity.
Qed.

Ltac cmp_cases :=
  repeat match goal with
    | H : context [(?a ?= ?b)%Z] |- _ =>
        destruct (Z.compare_spec a b); subst; cbn in H; try discriminate H
    | |- context [(?a ?= ?b)%Z] =>
        destruct (Z.compare_spec a b); subst; cbn; try lia
    | H : context [(?a ?= ?b)%positive] |- _ =>
        destruct (Pos.compare_spec a b); subst; cbn in H; try discriminate H
    | |- context [(?a ?= ?b)%positive] =>
        destruct (Pos.compare_spec a b); subst; cbn; try lia
    end.

Lemma SFltb_trans (x y z : float) :
  SFltb x y = true -> SFltb y z = true -> SFltb x z = true.
Proof.
  unfold SFltb.
  destruct x as [[]|[]| |[] mx ex], y as [[]|[]| |[] my ey],
    z as [[]|[]| |[] mz ez]; cbn; try discriminate; try reflexivity;
    rewrite ?Pos.compare_cont_spec; cbn; intros H1 H2;
    cmp_cases; try reflexivity; try discriminate; try lia.
Qed.

Lemma fold_min_spec (s : list float) :
  forall (x : float) (seen : list float),
    (forall y, In y seen -> PyFloat.ltb y x = false) -> In x seen ->
    let m := foldl (fun m y => if PyFloat.ltb y m then y else m) x s in
    In m (seen ++ s) /\ forall y, In y (seen ++ s) -> PyFloat.ltb y m = false.
Proof.
  induction s as [|y0 s IH]; intros x seen Hlow Hin; cbn zeta.
  - rewrite app_nil_r. by split.
  - cbn [foldl].
    replace (seen ++ y0 :: s) with ((seen ++ [y0]) ++ s)
      by (by rewrite <- app_assoc).
    apply IH.
    + intros y Hy. apply in_app_or in Hy as [Hy|[<-|[]]].
      * destruct (PyFloat.ltb y0 x) eqn:E; [|by apply Hlow].
        destruct (PyFloat.ltb y y0) eqn:E'; [|done].
        rewrite <- (Hlow y Hy). symmetry. by eapply SFltb_trans.
      * destruct (PyFloat.ltb y0 x) eqn:E; [apply SFltb_irrefl|done].
    + apply in_or_app.
      destruct (PyFloat.ltb y0 x); [right; by left|by left].
Qed.

Lemma fold_max_spec (s : list float) :
  forall (x : float) (seen : list float),
    (forall y, In y seen -> PyFloat.ltb x y = false) -> In x seen ->
    let m := foldl (fun m y => if PyFloat.ltb m y then y else m) x s in
    In m (seen ++ s) /\ forall y, In y (seen ++ s) -> PyFloat.ltb m y = false.
Proof.
  induction s as [|y0 s IH]; intros x seen Hup Hin; cbn zeta.
  - rewrite app_nil_r. by split.
  - cbn [foldl].
    replace (seen ++ y0 :: s) with ((seen ++ [y0]) ++ s)
      by (by rewrite <- app_assoc).
    apply IH.
    + intros y Hy. apply in_app_or in Hy as [Hy|[<-|[]]].
      * destruct (PyFloat.ltb x y0) eqn:E; [|by apply Hup].
        destruct (PyFloat.ltb y0 y) eqn:E'; [|done].
        rewrite <- (Hup y Hy). symmetry. by eapply SFltb_trans.
      * destruct (PyFloat.ltb x y0) eqn:E; [apply SFltb_irrefl|done].
    + apply in_or_app.
      destruct (PyFloat.ltb x y0); [right; by left|by left].
Qed.


(** The magnitude is above a positive bound when the value is above it
    or below its opposite. *)
Lemma gtb_abs (v : float) (m : positive) (e : Z) :
  PyFloat.gtb (PyFloat.abs v) (S754_finite false m e)
  = PyFloat.gtb v (S754_finite false m e)
    || PyFloat.ltb v (S754_finite true m e).
Proof.
  unfold PyFloat.gtb, PyFloat.ltb, PyFloat.abs, SFltb.
  destruct v as [[]|[]| |[] mv ev]; cbn; try reflexivity.
  - rewrite (Z.compare_antisym ev e).
    destruct (ev ?= e); cbn; try reflexivity.
    rewrite !Pos.compare_cont_spec; cbn.
    rewrite (Pos.compare_antisym mv m).
    destruct (mv ?= m)%positive; reflexivity.
  - by rewrite orb_false_r.
Qed.

(** ** The store *)

#[local] Arguments alloc : simpl never.
#[local] Arguments read : simpl never.

Lemma alloc_fresh (d : DataFrame) (h : store) : h !! (alloc d h).1 = None.
Proof. apply not_elem_of_dom, is_fresh. Qed.

Lemma alloc_read (d : DataFrame) (h : store) :
  read (alloc d h).2 (alloc d h).1 = d.
Proof. unfold read, alloc; cbn. by rewrite lookup_insert_eq. Qed.

Lemma alloc_other (d : DataFrame) (h : store) (l : loc) :
  is_Some (h !! l) -> (alloc d h).2 !! l = h !! l /\ l <> (alloc d h).1.
Proof.
  intros [x Hx]. assert (l <> (alloc d h).1) as Hne.
  { intros ->. rewrite alloc_fresh in Hx. discriminate. }
  split; [|exact Hne]. unfold alloc in *; cbn in *.
  by rewrite lookup_insert_ne.
Qed.

(** ** The append callback *)

(** The rows the editor marks invalid are those the append callback
    would turn down for their value. *)
Lemma gate_mask (x : float) :
  negb (between POWER_MIN POWER_MAX x) && Series.notna x
  = lt_int x POWER_MIN || gt_int x POWER_MAX.
Proof.
  destruct (PyFloat.is_nan x) eqn:Hx.
  - destruct x; try discriminate. reflexivity.
  - unfold Series.notna. rewrite Hx, andb_true_r.
    unfold between, lt_int, gt_int.
    rewrite negb_andb.
    change (PyFloat.ltb x (PyFloat.of_Z POWER_MIN))
      with (PyFloat.gtb (PyFloat.of_Z POWER_MIN) x).
    change (PyFloat.geb x (PyFloat.of_Z POWER_MIN))
      with (PyFloat.leb (PyFloat.of_Z POWER_MIN) x).
    by rewrite !gtb_negb_leb.
Qed.





(** C9. The text ["nan"] passes the range gate: [float] reads it as NaN,
    NaN is neither below -150 nor above 150, so a row holding NaN is
    appended to the table and success is reported. *)
Theorem handle_add_power_nan (now : string) (st : state) :
  let st' := handle_add_power now (set_power_input "nan" st) in
  PyStr.py_float (PyStr.strip "nan") = Some PyFloat.nan
  /\ lt_int PyFloat.nan POWER_MIN = false
  /\ gt_int PyFloat.nan POWER_MAX = false
  /\ table st' = table st ++ [Row (Some now) (CNum PyFloat.nan)]
  /\ last_input_status st' = Some ("success", Added now PyFloat.nan).
Proof.
  cbn zeta. split; [reflexivity|]. split; [reflexivity|].
  split; [reflexivity|].
  unfold handle_add_power.
  change (PyStr.strip (power_input (set_power_input "nan" st))) with "nan".
  change (PyStr.py_float "nan") with (Some PyFloat.nan).
  cbn [String.eqb Ascii.eqb]. cbn match.
  change (lt_int PyFloat.nan POWER_MIN || gt_int PyFloat.nan POWER_MAX)
    with false. cbn match.
  destruct (alloc _ _) as [l h] eqn:Ha.
  split; [|reflexivity].
  unfold table at 1; cbn.
  pose proof (alloc_read (table (set_power_input "nan" st)
                            ++ [Row (Some now) (CNum PyFloat.nan)])
                (heap (set_power_input "nan" st))) as Hr.
  rewrite Ha in Hr. exact Hr.
Qed.

(** ** The status card *)

(** C7. [power_status_label] gives [Unknown] when there is no value and
    otherwise classifies by the magnitude, whatever the sign: [High] when
    the value is above 120 or below -120, [Medium] when it is not [High]
    and is above 60 or below -60, that is in (60, 120] or in [-120, -60),
    and [Normal] in every other case. So 130 and -130 are [High], 80 and
    -80 are [Medium], 30 and -30 are [Normal], and the bounds 120 and
    -120 are [Medium], 60 and -60 [Normal]; 130 and -130, which are
    [High], are within the input range [-150, 150]. *)
Theorem power_status_label_spec :
  power_status_label None = Unknown
  /\ (forall v : float,
      power_status_label (Some v) =
        if gt_int v 120 || lt_int v (-120) then High
        else if gt_int v 60 || lt_int v (-60) then Medium
        else Normal)
  /\ (forall v : float,
      power_status_label (Some v) = Medium ->
      (gt_int v 60 = true /\ PyFloat.leb v (PyFloat.of_Z 120) = true)
      \/ (lt_int v (-60) = true /\ PyFloat.geb v (PyFloat.of_Z (-120)) = true))
  /\ map (fun z => power_status_label (Some (PyFloat.of_Z z)))
         [130; -130; 121; -121; 120; -120; 80; -80; 61; -61;
          60; -60; 30; -30; 0]
     = [High; High; High; High; Medium; Medium; Medium; Medium; Medium;
        Medium; Normal; Normal; Normal; Normal; Normal]
  /\ between POWER_MIN POWER_MAX (PyFloat.of_Z 130) = true
  /\ between POWER_MIN POWER_MAX (PyFloat.of_Z (-130)) = true.
Proof.
  assert (forall v : float,
      power_status_label (Some v) =
        if gt_int v 120 || lt_int v (-120) then High
        else if gt_int v 60 || lt_int v (-60) then Medium
        else Normal) as Hform.
  { intros v. unfold power_status_label, gt_int, lt_int.
    change (PyFloat.of_Z 120) with (S754_finite false 8444249301319680 (-46)).
    change (PyFloat.of_Z (-120)) with (S754_finite true 8444249301319680 (-46)).
    change (PyFloat.of_Z 60) with (S754_finite false 8444249301319680 (-47)).
    change (PyFloat.of_Z (-60)) with (S754_finite true 8444249301319680 (-47)).
    by rewrite !gtb_abs. }
  split; [reflexivity|]. split; [exact Hform|].
  split; [|by vm_compute].
  intros v. rewrite Hform.
  destruct (gt_int v 120 || lt_int v (-120)) eqn:Hhigh; [discriminate|].
  apply orb_false_iff in Hhigh as [Hup Hlow].
  destruct (gt_int v 60) eqn:H60; cbn [orb].
  - intros _. left. split; [reflexivity|].
    unfold gt_int in *. rewrite gtb_negb_leb in Hup.
    + by apply negb_false_iff in Hup.
    + eapply gtb_true_notnan, H60.
    + reflexivity.
  - destruct (lt_int v (-60)) eqn:Hm60; [|discriminate].
    intros _. right. split; [reflexivity|].
    unfold lt_int, PyFloat.ltb in *. unfold PyFloat.geb.
    change (SFltb v (PyFloat.of_Z (-120)))
      with (PyFloat.gtb (PyFloat.of_Z (-120)) v) in Hlow.
    rewrite gtb_negb_leb in Hlow.
    + by apply negb_false_iff in Hlow.
    + reflexivity.
    + destruct v; try reflexivity. discriminate Hm60.
Qed.

(** ** The snapshot history *)

Lemma alloc_subseteq (d : DataFrame) (h : store) : h ⊆ (alloc d h).2.
Proof. apply insert_subseteq, (alloc_fresh d). Qed.

Lemma read_weaken (h h' : store) (l : loc) :
  h ⊆ h' -> is_Some (h !! l) -> read h' l = read h l.
Proof.
  intros Hsub [x Hx]. unfold read.
  by rewrite (lookup_weaken _ _ _ _ Hx Hsub), Hx.
Qed.

Lemma is_Some_weaken (h h' : store) (l : loc) :
  h ⊆ h' -> is_Some (h !! l) -> is_Some (h' !! l).
Proof. intros Hsub [x Hx]. exists x. by eapply lookup_weaken. Qed.

Lemma empty_true (d : DataFrame) : empty d = true <-> d = [].
Proof. by destruct d. Qed.

Lemma add_to_history_empty now d name st :
  read (heap st) d = [] -> add_to_history now d name st = st.
Proof. intros H. unfold add_to_history. by rewrite H. Qed.

Lemma add_to_history_nonempty now d name st :
  read (heap st) d <> [] ->
  add_to_history now d name st =
    set_history
      (take 5 (Item name (alloc (read (heap st) d) (heap st)).1 now
                 :: history st))
      (alloc (read (heap st) d) (heap st)).2 st.
Proof.
  intros H. unfold add_to_history.
  destruct (empty (read (heap st) d)) eqn:E; [by apply empty_true in E|].
  by destruct (alloc _ _).
Qed.

Lemma add_to_history_subseteq now d name st :
  heap st ⊆ heap (add_to_history now d name st).
Proof.
  destruct (decide (read (heap st) d = [])) as [E|E].
  - by rewrite add_to_history_empty.
  - rewrite add_to_history_nonempty by done. apply alloc_subseteq.
Qed.

Lemma take_app_take {A} (n : nat) (l k : list A) :
  take n (l ++ take n k) = take n (l ++ k).
Proof. rewrite !take_app, take_take. do 2 f_equal. lia. Qed.

Lemma map_ext_Forall' {A B} (f g : A -> B) (l : list A) :
  Forall (fun x => f x = g x) l -> map f l = map g l.
Proof. induction 1; cbn; congruence. Qed.

Lemma inserts_history (calls : list (string * loc * string)) :
  forall st,
    (length (history st) <= 5)%nat ->
    Forall (fun it => is_Some (heap st !! item_df it)) (history st) ->
    Forall (fun c => is_Some (heap st !! c.1.2) /\ call_rows st c <> [])
           calls ->
    heap st ⊆ heap (inserts st calls)
    /\ map (snapshot (inserts st calls)) (history (inserts st calls))
       = take 5 (rev (map (call_rows st) calls)
                 ++ map (snapshot st) (history st)).
Proof.
  induction calls as [|[[now d] name] calls IH]; intros st Hlen Hh Hc.
  - cbn. split; [done|]. rewrite firstn_all2; [done|].
    by rewrite length_map.
  - inversion Hc as [|? ? [Hsome Hne] Hcs]; subst. cbn in Hsome, Hne.
    change (inserts st ((now, d, name) :: calls))
      with (inserts (add_to_history now d name st) calls).
    pose proof (add_to_history_subseteq now d name st) as Hsub.
    pose proof (add_to_history_nonempty now d name st Hne) as E.
    set (st1 := add_to_history now d name st) in *.
    set (rows := read (heap st) d) in *.
    set (it := Item name (alloc rows (heap st)).1 now) in *.
    assert (history st1 = take 5 (it :: history st)) as Ehist
        by (by rewrite E).
    assert (heap st1 = (alloc rows (heap st)).2) as Eheap by (by rewrite E).
    assert (snapshot st1 it = rows) as Eit.
    { unfold snapshot. rewrite Eheap. apply alloc_read. }
    assert (map (snapshot st1) (history st) = map (snapshot st) (history st))
      as Eold.
    { apply map_ext_Forall'. eapply Forall_impl; [exact Hh|].
      intros x Hx. by apply read_weaken. }
    destruct (IH st1) as [Hsub' Hmap].
    + rewrite Ehist, length_take. lia.
    + rewrite Ehist. apply Forall_take. constructor.
      * rewrite Eheap. unfold alloc. cbn.
        rewrite lookup_insert_eq. by eexists.
      * eapply Forall_impl; [exact Hh|]. intros x Hx.
        by eapply is_Some_weaken.
    + eapply Forall_impl; [exact Hcs|]. intros c [Hc1 Hc2].
      split; [by eapply is_Some_weaken|].
      unfold call_rows in *. by rewrite (read_weaken _ _ _ Hsub Hc1).
    + split; [by etrans|]. rewrite Hmap.
      replace (map (call_rows st1) calls) with (map (call_rows st) calls).
      2:{ apply map_ext_Forall'. eapply Forall_impl; [exact Hcs|].
          intros c [Hc1 _]. unfold call_rows. symmetry.
          by apply read_weaken. }
      rewrite Ehist, <- firstn_map. cbn [map]. rewrite Eit, Eold.
      rewrite take_app_take. cbn [map rev].
      by rewrite <- app_assoc.
Qed.

Lemma inserts_length (calls : list (string * loc * string)) :
  forall st, (length (history st) <= 5)%nat ->
             (length (history (inserts st calls)) <= 5)%nat.
Proof.
  induction calls as [|[[now d] name] calls IH]; intros st Hlen; [done|].
  change (inserts st ((now, d, name) :: calls))
    with (inserts (add_to_history now d name st) calls).
  apply IH. destruct (decide (read (heap st) d = [])) as [E|E].
  - by rewrite add_to_history_empty.
  - rewrite add_to_history_nonempty by done. cbn [history set_history].
    rewrite length_take. lia.
Qed.

(** C2. [add_to_history] leaves the state as it is when the table it is
    given is empty. Otherwise it puts a snapshot, a new object holding the
    rows of that table, in front of the history and keeps the first 5
    entries. So a history of at most 5 snapshots, the empty one of a new
    session in particular, holds at most 5 after any sequence of calls, and
    after calls with non-empty tables it holds the tables of the most
    recent calls first, followed by the older snapshots, 5 in all at
    most. *)
Theorem add_to_history_spec :
  (forall now d name st,
      read (heap st) d = [] -> add_to_history now d name st = st)
  /\ (forall now d nm st,
      read (heap st) d <> [] ->
      let st' := add_to_history now d nm st in
      exists it,
        history st' = take 5 (it :: history st)
        /\ name it = nm /\ timestamp it = now
        /\ heap st !! item_df it = None
        /\ snapshot st' it = read (heap st) d)
  /\ (forall calls st,
      (length (history st) <= 5)%nat ->
      (length (history (inserts st calls)) <= 5)%nat)
  /\ (forall calls, (length (history (inserts init calls)) <= 5)%nat)
  /\ (forall calls st,
      (length (history st) <= 5)%nat ->
      Forall (fun it => is_Some (heap st !! item_df it)) (history st) ->
      Forall (fun c => is_Some (heap st !! c.1.2) /\ call_rows st c <> [])
             calls ->
      map (snapshot (inserts st calls)) (history (inserts st calls))
      = take 5 (rev (map (call_rows st) calls)
                ++ map (snapshot st) (history st))).
Proof.
  split; [exact add_to_history_empty|]. split; [|split; [|split]].
  - intros now d name st Hne st'. subst st'.
    rewrite (add_to_history_nonempty now d name st Hne).
    exists (Item name (alloc (read (heap st) d) (heap st)).1 now).
    split; [reflexivity|]. split; [reflexivity|]. split; [reflexivity|].
    split.
    + apply (alloc_fresh (read (heap st) d)).
    + apply alloc_read.
  - intros calls st. apply inserts_length.
  - intros calls. apply inserts_length. unfold init, alloc. cbn. lia.
  - intros calls st Hlen Hh Hc. by apply inserts_history.
Qed.

(** Six calls with six tables leave the last five, the latest first. *)
Lemma add_to_history_witness :
  map (snapshot (inserts six_state six_calls))
      (history (inserts six_state six_calls))
  = rev (drop 1 six_tables).
Proof.
  destruct add_to_history_spec as (_ & _ & _ & _ & H).
  rewrite (H six_calls six_state).
  - vm_compute. reflexivity.
  - cbn. lia.
  - constructor.
  - repeat constructor; try (vm_compute; eexists; reflexivity);
      vm_compute; discriminate.
Defined.

(** ** Snapshots and the live table *)

Lemma alloc_frame (d : DataFrame) (h h' : store) (l l' : loc) :
  alloc d h = (l', h') -> is_Some (h !! l) -> h' !! l = h !! l /\ l <> l'.
Proof.
  intros E Hl. destruct (alloc_other d h l Hl) as [H1 H2].
  rewrite E in H1, H2. done.
Qed.

Lemma alloc_allocated (d : DataFrame) (h h' : store) (l' : loc) :
  alloc d h = (l', h') -> is_Some (h' !! l').
Proof.
  intros [= <- <-]. rewrite lookup_insert_eq. by eexists.
Qed.

Tactic Notation "case_alloc" ident(l) ident(h) ident(E) :=
  match goal with
  | |- context [alloc ?d ?h0] => destruct (alloc d h0) as [l h] eqn:E
  end.

Section Session.

Variable str_to_float : string -> option float.

Local Abbreviation step_ := (step str_to_float).
Local Abbreviation run_ := (run str_to_float).

(** An object other than the live table is left as it is by every
    event, and does not become the live table. *)
Lemma step_frame (st : state) (ev : event) (l : loc) :
  is_Some (heap st !! l) -> l <> df st ->
  heap (step_ st ev) !! l = heap st !! l /\ l <> df (step_ st ev).
Proof.
  intros Hl Hne. destruct ev as [now text| |edited as_copy|now fb|i|b]; cbn [step].
  - unfold handle_add_power.
    destruct (String.eqb _ _); [done|].
    destruct (PyStr.py_float _) as [v|]; [|done].
    destruct (_ || _); [done|].
    case_alloc l' h' E. cbn.
    eapply alloc_frame; [exact E|exact Hl].
  - unfold clear_data. case_alloc l' h' E. cbn.
    eapply alloc_frame; [exact E|exact Hl].
  - unfold edit_table, data_editor. destruct (edit_mode st); [|done].
    destruct as_copy.
    + case_alloc l' h' E. cbn.
      destruct (alloc_frame _ _ _ _ _ E Hl) as [H1 H2].
      by rewrite lookup_insert_ne.
    + cbn. by rewrite !lookup_insert_ne.
  - unfold export. destruct (empty (table st)); [done|].
    case_alloc l1 h1 E1.
    destruct (alloc_frame _ _ _ _ _ E1 Hl) as [H1 H2].
    unfold add_to_history. cbn.
    destruct (empty (read h1 l1)); [done|].
    case_alloc l2 h2 E2. cbn.
    assert (is_Some (h1 !! l)) as Hl1 by (by rewrite H1).
    destruct (alloc_frame _ _ _ _ _ E2 Hl1) as [H3 H4].
    split; [congruence|done].
  - unfold restore. destruct (history st !! i) as [it|]; [|done].
    case_alloc l' h' E. cbn.
    eapply alloc_frame; [exact E|exact Hl].
  - done.
Qed.

Lemma step_df_allocated (st : state) (ev : event) :
  is_Some (heap st !! df st) ->
  is_Some (heap (step_ st ev) !! df (step_ st ev)).
Proof.
  intros Hd. destruct ev as [now text| |edited as_copy|now fb|i|b]; cbn [step].
  - unfold handle_add_power.
    destruct (String.eqb _ _); [done|].
    destruct (PyStr.py_float _) as [v|]; [|done].
    destruct (_ || _); [done|].
    case_alloc l' h' E. cbn.
    by eapply alloc_allocated.
  - unfold clear_data. case_alloc l' h' E. cbn.
    by eapply alloc_allocated.
  - unfold edit_table, data_editor. destruct (edit_mode st); [|done].
    destruct as_copy.
    + case_alloc l' h' E. cbn.
      rewrite lookup_insert_eq. by eexists.
    + cbn. rewrite lookup_insert_eq. by eexists.
  - unfold export. destruct (empty (table st)); [done|].
    case_alloc l1 h1 E1.
    destruct (alloc_frame _ _ _ _ _ E1 Hd) as [H1 H2].
    unfold add_to_history. cbn.
    destruct (empty (read h1 l1)); [cbn; by rewrite H1|].
    case_alloc l2 h2 E2. cbn.
    assert (is_Some (h1 !! df st)) as Hl1 by (by rewrite H1).
    destruct (alloc_frame _ _ _ _ _ E2 Hl1) as [H3 H4].
    by rewrite H3.
  - unfold restore. destruct (history st !! i) as [it|]; [|done].
    case_alloc l' h' E. cbn.
    by eapply alloc_allocated.
  - done.
Qed.

(** An entry of the history after an event was there before, or is a
    new object, which is not the live table. *)
Lemma step_history (st : state) (ev : event) (it : item) :
  is_Some (heap st !! df st) ->
  it ∈ history (step_ st ev) ->
  it ∈ history st
  \/ (is_Some (heap (step_ st ev) !! item_df it)
      /\ item_df it <> df (step_ st ev)).
Proof.
  intros Hd. destruct ev as [now text| |edited as_copy|now fb|i|b]; cbn [step].
  - unfold handle_add_power.
    destruct (String.eqb _ _); [by left|].
    destruct (PyStr.py_float _) as [v|]; [|by left].
    destruct (_ || _); [by left|].
    case_alloc l' h' E. by left.
  - unfold clear_data. case_alloc l' h' E. by left.
  - unfold edit_table, data_editor. destruct (edit_mode st); [|by left].
    destruct as_copy; [case_alloc l' h' E|];
      by left.
  - unfold export. destruct (empty (table st)); [by left|].
    case_alloc l1 h1 E1.
    destruct (alloc_frame _ _ _ _ _ E1 Hd) as [H1 H2].
    unfold add_to_history. cbn.
    destruct (empty (read h1 l1)); [by left|].
    case_alloc l2 h2 E2. cbn.
    assert (is_Some (h1 !! df st)) as Hl1 by (by rewrite H1).
    destruct (alloc_frame _ _ _ _ _ E2 Hl1) as [H3 H4].
    intros Hin. apply elem_of_cons in Hin as [->|Hin].
    + right. cbn. split; [|done]. by eapply alloc_allocated.
    + left. apply elem_of_take in Hin as (k & Hk & _).
      by eapply list_elem_of_lookup_2.
  - unfold restore. destruct (history st !! i) as [it'|]; [|by left].
    case_alloc l' h' E. by left.
  - by left.
Qed.

Lemma step_wf (st : state) (ev : event) : wf st -> wf (step_ st ev).
Proof.
  intros [Hd Hh]. split; [by apply step_df_allocated|].
  apply Forall_forall. intros it Hin.
  destruct (step_history st ev it Hd Hin) as [Hold|Hnew]; [|done].
  rewrite Forall_forall in Hh. destruct (Hh it Hold) as [Ha Hne].
  destruct (step_frame st ev _ Ha Hne) as [H1 H2].
  split; [by rewrite H1|done].
Qed.

Lemma init_wf : wf init.
Proof. split; [vm_compute; by eexists|constructor]. Qed.

Lemma run_wf (evs : list event) : forall st, wf st -> wf (run_ st evs).
Proof.
  induction evs as [|ev evs IH]; intros st Hwf; [done|].
  apply (IH (step_ st ev)). by apply step_wf.
Qed.

Lemma run_frame (evs : list event) :
  forall st l,
    is_Some (heap st !! l) -> l <> df st ->
    heap (run_ st evs) !! l = heap st !! l /\ l <> df (run_ st evs).
Proof.
  induction evs as [|ev evs IH]; intros st l Hl Hne; [done|].
  destruct (step_frame st ev l Hl Hne) as [H1 H2].
  destruct (IH (step_ st ev) l) as [H3 H4]; [by rewrite H1|done|].
  change (run_ st (ev :: evs)) with (run_ (step_ st ev) evs).
  split; [by rewrite H3|done].
Qed.

(** C6. A snapshot is not altered once it is stored. For every state
    [st] a session reaches and every snapshot [it] of its history, the
    rows of [it] stay what they are through every further sequence of
    events: entries appended, the table edited (by the widget in place
    or in a copy), cleared, exported or restored. Restoring [it] makes
    the live table a new object with the rows of [it], distinct from the
    object of the snapshot, so that what happens to the live table
    afterwards leaves the rows of [it] as they are. *)
Theorem snapshot_immutable (evs : list event) (it : item) :
  let st := run_ init evs in
  it ∈ history st ->
  (forall evs', snapshot (run_ st evs') it = snapshot st it)
  /\ (forall i, history st !! i = Some it ->
      let st' := step_ st (Restore i) in
      table st' = snapshot st it
      /\ df st' <> item_df it
      /\ forall evs', snapshot (run_ st' evs') it = snapshot st it).
Proof.
  intros st Hin.
  assert (wf st) as [Hd Hh] by apply run_wf, init_wf.
  rewrite Forall_forall in Hh. destruct (Hh it Hin) as [Ha Hne].
  assert (forall evs', snapshot (run_ st evs') it = snapshot st it) as Hfr.
  { intros evs'. unfold snapshot, read.
    destruct (run_frame evs' st _ Ha Hne) as [H1 _]. by rewrite H1. }
  split; [exact Hfr|].
  intros i Hi st'. subst st'.
  change (run_ st [Restore i]) with (step_ st (Restore i)) in *.
  split; [|split].
  - cbn. unfold restore. rewrite Hi.
    case_alloc l' h' E. unfold table. cbn.
    pose proof (alloc_read (read (heap st) (item_df it)) (heap st)) as Hr.
    by rewrite E in Hr.
  - destruct (step_frame st (Restore i) _ Ha Hne) as [_ H2]. done.
  - intros evs'. rewrite <- (Hfr (Restore i :: evs')). reflexivity.
Qed.

End Session.

(** The snapshot of the short session is the same after the later
    events, among them edits in place and a restore. *)
Lemma snapshot_immutable_witness :
  snapshot (run example_to_float (run example_to_float init session_events)
                later_events) stored_item
  = [Row (Some "2024-01-01 10:00:00") (CNum (PyFloat.of_Z 10))].
Proof.
  destruct (snapshot_immutable example_to_float session_events stored_item)
    as [H _].
  - vm_compute. constructor.
  - rewrite H. vm_compute. reflexivity.
Defined.

(** ** The editable table *)

Section Editor.

Variable str_to_float : string -> option float.

Local Abbreviation to_numeric_ := (to_numeric str_to_float).
Local Abbreviation edit_table_ := (edit_table str_to_float).
Local Abbreviation coerce_power_ := (coerce_power str_to_float).

(** What the commit stores is the edited table with its Power column
    coerced. *)
Lemma edit_table_table (edited : DataFrame) (as_copy : bool) (st : state) :
  edit_mode st = true ->
  table (edit_table_ edited as_copy st).1 = map coerce_power_ edited.
Proof.
  intros Hm. unfold edit_table, data_editor. rewrite Hm.
  destruct as_copy.
  - case_alloc l h E. cbn. unfold table, read. cbn.
    rewrite lookup_insert_eq. cbn.
    pose proof (alloc_read edited (heap st)) as Hr. rewrite E in Hr.
    cbn in Hr. unfold read in Hr. by rewrite Hr.
  - cbn. unfold table, read. cbn. by rewrite !lookup_insert_eq.
Qed.

Lemma edit_table_warning (edited : DataFrame) (as_copy : bool) (st : state) :
  edit_mode st = true ->
  (edit_table_ edited as_copy st).2
  = existsb (fun r => negb (between POWER_MIN POWER_MAX
                              (to_numeric_ (power r)))
                      && Series.notna (to_numeric_ (power r))) edited.
Proof.
  intros Hm. unfold edit_table, data_editor. rewrite Hm.
  assert (forall l : DataFrame,
    existsb id
      (map (fun r => negb (between POWER_MIN POWER_MAX
                             (to_numeric_ (power r)))
                     && Series.notna (to_numeric_ (power r)))
           (map coerce_power_ l))
    = existsb (fun r => negb (between POWER_MIN POWER_MAX
                                (to_numeric_ (power r)))
                        && Series.notna (to_numeric_ (power r))) l) as Hex.
  { induction l as [|r l IH]; [done|]. cbn. by rewrite IH. }
  destruct as_copy.
  - case_alloc l h E. cbn. unfold read at 1. rewrite lookup_insert_eq. cbn.
    pose proof (alloc_read edited (heap st)) as Hr. rewrite E in Hr.
    cbn in Hr. rewrite Hr. apply Hex.
  - cbn. unfold read. rewrite !lookup_insert_eq. cbn. apply Hex.
Qed.

(** C8, as the code has it. A commit of the editable table rejects no
    row: the stored table has the edited rows, all of them and in their
    order, with their time stamps as edited. The Power column is stored
    coerced, not raw: each value becomes the float [pd.to_numeric] reads
    in it, NaN for a missing or unparsable one, so a row that holds a
    number keeps it, in range or not. Out-of-range numbers only raise
    the warning. *)
Theorem edit_table_spec (edited : DataFrame) (as_copy : bool) (st : state) :
  edit_mode st = true ->
  let st' := (edit_table_ edited as_copy st).1 in
  let warning := (edit_table_ edited as_copy st).2 in
  length (table st') = length edited
  /\ map date_time (table st') = map date_time edited
  /\ map power (table st')
     = map (fun r => CNum (to_numeric_ (power r))) edited
  /\ (forall i r x, edited !! i = Some r -> power r = CNum x ->
      table st' !! i = Some r)
  /\ (forall i r, edited !! i = Some r -> to_numeric_ (power r) = PyFloat.nan
      -> table st' !! i = Some (Row (date_time r) (CNum PyFloat.nan)))
  /\ (warning = true <->
      exists r, r ∈ edited
                /\ Series.notna (to_numeric_ (power r)) = true
                /\ between POWER_MIN POWER_MAX (to_numeric_ (power r))
                   = false)
  /\ history st' = history st.
Proof.
  intros Hm st' warning. subst st' warning.
  rewrite edit_table_table, edit_table_warning by done.
  split; [by rewrite length_map|].
  split; [by rewrite map_map|].
  split; [by rewrite map_map|].
  split; [|split; [|split]].
  - intros i r x Hi Hp.
    change (map coerce_power_ edited) with (coerce_power_ <$> edited).
    rewrite list_lookup_fmap, Hi. cbn. unfold coerce_power.
    rewrite Hp. cbn. destruct r as [t p]. cbn in *. by subst.
  - intros i r Hi Hn.
    change (map coerce_power_ edited) with (coerce_power_ <$> edited).
    rewrite list_lookup_fmap, Hi. cbn. unfold coerce_power. by rewrite Hn.
  - rewrite existsb_exists. split.
    + intros (r & Hin & Hr). apply andb_true_iff in Hr as [H1 H2].
      exists r. split; [by apply list_elem_of_In|].
      split; [done|]. by apply negb_true_iff.
    + intros (r & Hin & H1 & H2). exists r.
      split; [by apply list_elem_of_In|]. by rewrite H1, H2.
  - unfold edit_table, data_editor. rewrite Hm.
    destruct as_copy; [case_alloc l h E|]; done.
Qed.

(** C10. After a commit of the editable table every entry of the
    stored Power column is a float, NaN included, and never a text: the
    commit writes back the column coerced by [pd.to_numeric], which
    turns a missing or unparsable value into NaN. *)
Theorem edit_table_power_float (edited : DataFrame) (as_copy : bool)
    (st : state) :
  edit_mode st = true ->
  let st' := (edit_table_ edited as_copy st).1 in
  Forall (fun r => is_float_cell (power r) = true) (table st')
  /\ map power (table st')
     = map (fun r => CNum (to_numeric_ (power r))) edited
  /\ (forall s, str_to_float s = None ->
      to_numeric_ (CStr s) = PyFloat.nan)
  /\ to_numeric_ CNone = PyFloat.nan.
Proof.
  intros Hm st'. subst st'. rewrite edit_table_table by done.
  split; [|split; [by rewrite map_map|split]].
  - apply Forall_forall. intros r Hin.
    apply list_elem_of_In, in_map_iff in Hin as (r0 & <- & _). done.
  - intros s Hs. cbn. by rewrite Hs.
  - done.
Qed.

End Editor.

(** The commit of [edited_example] in a new session. *)
Lemma edit_table_spec_witness :
  map power (table (edit_table example_to_float edited_example true init).1)
  = [CNum (PyFloat.of_Z 10); CNum PyFloat.nan; CNum PyFloat.nan;
     CNum (PyFloat.of_Z 200)].
Proof.
  destruct (edit_table_spec example_to_float edited_example true init)
    as (_ & _ & H & _); [reflexivity|].
  rewrite H. vm_compute. reflexivity.
Defined.

(** C8 as stated fails: the text ["abc"] typed into the Power column is
    not stored as typed. *)
Lemma edit_table_not_raw :
  table (edit_table example_to_float
           [Row (Some "2024-01-01 10:01:00") (CStr "abc")] true init).1
  <> [Row (Some "2024-01-01 10:01:00") (CStr "abc")].
Proof. vm_compute. discriminate. Qed.

Lemma edit_table_power_float_witness :
  Forall (fun r => is_float_cell (power r) = true)
         (table (edit_table example_to_float edited_example false init).1).
Proof.
  destruct (edit_table_power_float example_to_float edited_example false init)
    as (H & _); [reflexivity|].
  exact H.
Defined.

(** ** Statistics *)

Lemma filter_map_comm {A B} (f : A -> B) (p : B -> bool) (l : list A) :
  List.filter p (map f l) = map f (List.filter (fun x => p (f x)) l).
Proof.
  induction l as [|x l IH]; [done|]. cbn.
  destruct (p (f x)); cbn; by rewrite IH.
Qed.

Lemma filter_idem {A} (p : A -> bool) (l : list A) :
  List.filter p (List.filter p l) = List.filter p l.
Proof.
  induction l as [|x l IH]; [done|]. cbn.
  destruct (p x) eqn:E; cbn; rewrite ?E; by rewrite IH.
Qed.

#[local] Instance fle_total : Total Series.fle.
Proof.
  intros x y. unfold Series.fle, PyFloat.ltb.
  destruct (SFltb y x) eqn:E; [right|by left].
  destruct (SFltb x y) eqn:E'; [|done].
  rewrite <- (SFltb_irrefl x). symmetry. by eapply SFltb_trans.
Qed.







Section Statistics.

Variable np_sum : Series.t -> float.
Variable str_to_float : string -> option float.

Local Abbreviation to_numeric_ := (to_numeric str_to_float).
Local Abbreviation compute_power_stats_ :=
  (compute_power_stats np_sum str_to_float).
Local Abbreviation numeric_rows_ := (numeric_rows str_to_float).
Local Abbreviation numeric_values_ := (numeric_values str_to_float).

Lemma dropna_to_numeric (d : DataFrame) :
  Series.dropna (map to_numeric_ (map power d)) = numeric_values_ d.
Proof.
  unfold Series.dropna, numeric_values, numeric_rows.
  by rewrite map_map, filter_map_comm.
Qed.

Lemma count_numeric_values (d : DataFrame) :
  Series.count (numeric_values_ d) = length (numeric_rows_ d).
Proof.
  unfold Series.count, Series.dropna, numeric_values, numeric_rows.
  by rewrite filter_map_comm, filter_idem, length_map.
Qed.



End Statistics.


(** ** Smoothing *)

Section Windows.

Local Open Scope nat_scope.

Context {A : Type}.






End Windows.




Lemma between_notna (left right : Z) (x : float) :
  between left right x = true -> Series.notna x = true.
Proof. destruct x; try done. unfold between. by destruct (PyFloat.of_Z left). Qed.

Section Smoothing.

Variable roll_mean : Series.t -> list (nat * nat) -> nat -> nat -> float.

Local Abbreviation Power_plot_ := (Power_plot roll_mean).


End Smoothing.

Section Range.

Variable str_to_float : string -> option float.
Variable str_to_datetime : string -> option (option Z).

Local Abbreviation tab_visual_ := (tab_visual str_to_float str_to_datetime).

Lemma tab_visual_between (c : controls) (d : DataFrame) :
  Forall (fun r => between (power_range c).1 (power_range c).2 (p_power r)
                   = true) (tab_visual_ c d).
Proof.
  unfold tab_visual. destruct (prepare_plot_df _ _ d); [constructor|].
  apply Forall_forall. intros r Hr.
  apply list_elem_of_In, filter_In in Hr as [_ Hr]. exact Hr.
Qed.

End Range.

(** ** The plotting frame *)

Lemma ascii_compare_refl (a : ascii) : Ascii.compare a a = Eq.
Proof. unfold Ascii.compare. apply N.compare_refl. Qed.

Lemma string_compare_lt_trans (s1 : string) :
  forall s2 s3,
    String.compare s1 s2 = Lt -> String.compare s2 s3 = Lt ->
    String.compare s1 s3 = Lt.
Proof.
  induction s1 as [|a s1 IH]; intros [|b s2] [|c s3]; cbn; try done.
  destruct (Ascii.compare a b) eqn:Eab; try done;
    destruct (Ascii.compare b c) eqn:Ebc; try done.
  - apply Ascii.compare_eq_iff in Eab, Ebc. subst.
    rewrite ascii_compare_refl. apply IH.
  - apply Ascii.compare_eq_iff in Eab. subst. by rewrite Ebc.
  - apply Ascii.compare_eq_iff in Ebc. subst. by rewrite Eab.
  - unfold Ascii.compare in *.
    rewrite N.compare_lt_iff in Eab, Ebc.
    assert ((N_of_ascii a ?= N_of_ascii c)%N = Lt) as ->; [|done].
    apply N.compare_lt_iff. lia.
Qed.

Lemma string_leb_trans (s1 s2 s3 : string) :
  String.leb s1 s2 = true -> String.leb s2 s3 = true ->
  String.leb s1 s3 = true.
Proof.
  unfold String.leb.
  destruct (String.compare s1 s2) eqn:E12; try done;
    destruct (String.compare s2 s3) eqn:E23; try done; intros _ _.
  - apply String.compare_eq_iff in E12. subst. by rewrite E23.
  - apply String.compare_eq_iff in E12. subst. by rewrite E23.
  - apply String.compare_eq_iff in E23. subst. by rewrite E12.
  - by rewrite (string_compare_lt_trans _ _ _ E12 E23).
Qed.

#[local] Instance row_le_total : Total row_le.
Proof.
  intros [a x] [b y]. unfold row_le. cbn.
  destruct a as [|s|t], b as [|u|v]; cbn; auto.
  - destruct (String.leb_total s u); auto.
  - destruct (Z.leb_spec t v); [by left|right]. apply Z.leb_le. lia.
Qed.

#[local] Instance row_le_trans : Transitive row_le.
Proof.
  intros [a x] [b y] [c z]. unfold row_le. cbn.
  destruct a as [|s|t], b as [|u|v], c as [|w|q]; cbn; try done.
  - apply string_leb_trans.
  - rewrite !Z.leb_le. lia.
Qed.

Lemma filter_filter_andb {A} (p q : A -> bool) (l : list A) :
  List.filter p (List.filter q l) = List.filter (fun x => q x && p x) l.
Proof.
  induction l as [|x l IH]; [done|]. cbn.
  destruct (q x); cbn; [destruct (p x)|]; by rewrite IH.
Qed.

Lemma filter_Permutation {A} (p : A -> bool) (l k : list A) :
  l ≡ₚ k -> List.filter p l ≡ₚ List.filter p k.
Proof.
  induction 1 as [|x l k _ IH|x y l|l k m _ IH1 _ IH2]; cbn.
  - done.
  - destruct (p x); by rewrite IH.
  - destruct (p x), (p y); try done. apply perm_swap.
  - by etrans.
Qed.

Lemma filter_StronglySorted {A} (R : relation A) (p : A -> bool)
    (l : list A) :
  StronglySorted R l -> StronglySorted R (List.filter p l).
Proof.
  induction 1 as [|x l _ IH Hx]; cbn; [constructor|].
  destruct (p x); [|done]. constructor; [done|].
  apply Forall_forall. intros y Hy.
  apply list_elem_of_In, filter_In in Hy as [Hy _].
  rewrite Forall_forall in Hx. by apply Hx, list_elem_of_In.
Qed.

Lemma zip_with_map {A B C D} (f : B -> C -> D) (g : A -> B) (h : A -> C)
    (l : list A) :
  zip_with f (map g l) (map h l) = map (fun x => f (g x) (h x)) l.
Proof. induction l as [|x l IH]; [done|]. cbn. by rewrite IH. Qed.

Lemma filter_length_split {A} (p : A -> bool) (l : list A) :
  (length (List.filter p l) + length (List.filter (fun x => negb (p x)) l)
   = length l)%nat.
Proof.
  induction l as [|x l IH]; [done|]. cbn. destruct (p x); cbn; lia.
Qed.

Section Plot.

Variable str_to_float : string -> option float.
Variable str_to_datetime : string -> option (option Z).

Local Abbreviation tab_visual_ := (tab_visual str_to_float str_to_datetime).
Local Abbreviation plot_of_ := (plot_of str_to_float str_to_datetime).
Local Abbreviation plot_time_ := (plot_time str_to_datetime).
Local Abbreviation kept_ := (kept str_to_float str_to_datetime).
Local Abbreviation value_ok_ := (value_ok str_to_float).
Local Abbreviation time_ok_ := (time_ok str_to_datetime).
Local Abbreviation raises_ := (raises str_to_datetime).

Lemma to_datetime_cases (d : DataFrame) :
  to_datetime str_to_datetime (map date_time d)
  = if raises_ d then None
    else Some (map (fun r => default NaT
                               (to_datetime_cell str_to_datetime
                                                 (date_time r))) d).
Proof.
  unfold to_datetime. induction d as [|[t p] d IH]; [done|].
  cbn [map mapM raises existsb date_time]. rewrite IH.
  unfold raises. destruct t as [s|]; cbn.
  - destruct (str_to_datetime s) as [[t|]|]; cbn; [| |done];
      by destruct (existsb _ d).
  - by destruct (existsb _ d).
Qed.

Lemma prepare_plot_df_eq (d : DataFrame) :
  prepare_plot_df str_to_float str_to_datetime d
  = map (plot_of_ d) (List.filter value_ok_ d).
Proof.
  unfold prepare_plot_df. rewrite to_datetime_cases.
  rewrite <- (filter_map_comm (plot_of_ d)
                (fun r => Series.notna (p_power r))).
  f_equal. unfold plot_of, plot_time.
  destruct (raises_ d); rewrite !map_map; apply zip_with_map.
Qed.

(** The frame before the optional sort and the range filter. *)
Lemma tab_visual_eq (c : controls) (d : DataFrame) :
  let frame :=
    map (plot_of_ d)
        (List.filter (fun r => value_ok_ r
                               && time_notna (plot_time_ d r)) d) in
  tab_visual_ c d
  = List.filter (fun r => between (power_range c).1 (power_range c).2
                            (p_power r))
                (if sort_time c then merge_sort row_le frame else frame).
Proof.
  intros frame. subst frame. unfold tab_visual.
  rewrite prepare_plot_df_eq.
  rewrite <- (filter_filter_andb
                (fun r => time_notna (plot_time_ d r)) value_ok_).
  rewrite <- (filter_map_comm (plot_of_ d)
                (fun r => time_notna (p_date_time r))).
  set (l := map (plot_of_ d) (List.filter value_ok_ d)).
  assert (List.filter
            (fun r => time_notna (p_date_time r)
                      && Series.notna (p_power r)) l
          = List.filter (fun r => time_notna (p_date_time r)) l) as ->.
  { subst l. rewrite !filter_map_comm. f_equal.
    rewrite !filter_filter_andb. apply filter_ext.
    intros r. unfold value_ok, plot_of. cbn.
    destruct (Series.notna _), (time_notna _); done. }
  destruct l; [by destruct (sort_time c)|done].
Qed.

Lemma time_notna_plot_time (d : DataFrame) (r : row) :
  time_notna (plot_time_ d r)
  = if raises_ d then time_present r else time_ok_ r.
Proof.
  unfold plot_time, time_present, time_ok, to_datetime_cell, raw_time.
  destruct (raises_ d), (date_time r) as [s|]; try done.
  by destruct (str_to_datetime s) as [[t|]|].
Qed.

(** C4, as the code has it. The plotting frame holds the rows whose
    value coerces to a number and lies in the display range and whose
    time stamp is kept: when every time stamp of the table converts
    without an error, the rows whose time stamp is an instant; when
    some time stamp makes the conversion fail, the column is left as
    text and every row that has a time stamp is kept, the unparsable
    ones included. The rows come in the order of the table, or, with
    sorting, in ascending order of the Date Time column; their number is
    the number of input rows minus the rows not kept. When no time stamp
    makes the conversion fail and every numeric value is in the display
    range, that is the input rows minus those whose time stamp or value
    does not coerce. *)
Theorem tab_visual_spec (c : controls) (d : DataFrame) :
  tab_visual_ c d ≡ₚ map (plot_of_ d) (List.filter (kept_ c d) d)
  /\ (sort_time c = false ->
      tab_visual_ c d = map (plot_of_ d) (List.filter (kept_ c d) d))
  /\ (sort_time c = true -> StronglySorted row_le (tab_visual_ c d))
  /\ (length (tab_visual_ c d)
      = length d
        - length (List.filter (fun r => negb (kept_ c d r)) d))%nat
  /\ (forall r,
      kept_ c d r
      = value_ok_ r
        && (if raises_ d then time_present r else time_ok_ r)
        && between (power_range c).1 (power_range c).2
                   (to_numeric str_to_float (power r)))
  /\ (raises_ d = false ->
      forallb (fun r => negb (value_ok_ r)
                        || between (power_range c).1 (power_range c).2
                                   (to_numeric str_to_float (power r))) d
      = true ->
      length (tab_visual_ c d)
      = length d
        - length (List.filter
                    (fun r => negb (time_ok_ r && value_ok_ r)) d))%nat.
Proof.
  pose proof (tab_visual_eq c d) as E. cbn zeta in E.
  set (frame := map (plot_of_ d)
                  (List.filter (fun r => value_ok_ r
                                         && time_notna (plot_time_ d r))
                               d)) in *.
  assert (List.filter (fun r => between (power_range c).1
                                  (power_range c).2 (p_power r)) frame
          = map (plot_of_ d) (List.filter (kept_ c d) d)) as Ef.
  { subst frame. rewrite filter_map_comm, filter_filter_andb. done. }
  assert (tab_visual_ c d ≡ₚ map (plot_of_ d) (List.filter (kept_ c d) d))
    as Hperm.
  { rewrite E, <- Ef. destruct (sort_time c); [|done].
    apply filter_Permutation, merge_sort_Permutation. }
  assert (length (tab_visual_ c d) = length (List.filter (kept_ c d) d))
    as Hlen by (by rewrite Hperm, length_map).
  split; [exact Hperm|]. split; [|split; [|split; [|split]]].
  - intros Hs. by rewrite E, Hs.
  - intros Hs. rewrite E, Hs.
    apply filter_StronglySorted, StronglySorted_merge_sort; apply _.
  - rewrite Hlen. pose proof (filter_length_split (kept_ c d) d). lia.
  - intros r. unfold kept. by rewrite time_notna_plot_time.
  - intros Hr Hall. rewrite Hlen.
    pose proof (filter_length_split
                  (fun r => time_ok_ r && value_ok_ r) d) as Hsplit.
    cbn beta in Hsplit.
    replace (List.filter (kept_ c d) d)
      with (List.filter (fun r => time_ok_ r && value_ok_ r) d); [lia|].
    rewrite forallb_forall in Hall. apply filter_ext_in.
    intros r Hin. specialize (Hall r Hin). unfold kept.
    rewrite time_notna_plot_time, Hr.
    destruct (value_ok_ r), (time_ok_ r); cbn in *; try done;
      by rewrite Hall.
Qed.

End Plot.

(** C4 as stated fails: a row whose time stamp does not parse is not
    dropped. Of the two rows of [garbage_table] one has such a time
    stamp, and the frame has two rows. *)
Lemma tab_visual_keeps_unparsable :
  length (tab_visual example_to_float example_to_datetime default_controls
            garbage_table)
  <> (length garbage_table
      - length (List.filter
                  (fun r => negb (time_ok example_to_datetime r
                                  && value_ok example_to_float r))
                  garbage_table))%nat.
Proof. vm_compute. discriminate. Qed.

(** On [unordered_table], where two rows do not coerce, three rows are
    left, in the order of their time stamps. *)
Lemma tab_visual_spec_witness :
  StronglySorted row_le
    (tab_visual example_to_float example_to_datetime default_controls
       unordered_table)
  /\ length (tab_visual example_to_float example_to_datetime
               default_controls unordered_table) = 3%nat.
Proof.
  destruct (tab_visual_spec example_to_float example_to_datetime
              default_controls unordered_table)
    as (_ & _ & Hs & _ & _ & Hc).
  split; [by apply Hs|].
  rewrite Hc; by vm_compute.
Defined.


(** * Further properties *)

(** ** The input box: white space *)

Lemma lstrip_blank (l : list ascii) : blank l -> PyStr.lstrip l = [].
Proof. induction 1 as [|c l Hc _ IH]; [done|]. cbn. by rewrite Hc. Qed.

Lemma lstrip_app_blank (ws l : list ascii) :
  blank ws -> PyStr.lstrip (ws ++ l) = PyStr.lstrip l.
Proof. induction 1 as [|c ws Hc _ IH]; [done|]. cbn. by rewrite Hc. Qed.

Lemma lstrip_app_r (l ws : list ascii) :
  blank ws ->
  PyStr.lstrip (l ++ ws)
  = match PyStr.lstrip l with [] => [] | _ => PyStr.lstrip l ++ ws end.
Proof.
  intros Hws. induction l as [|c l IH]; cbn.
  - by apply lstrip_blank.
  - destruct (PyStr.is_space c); [exact IH|done].
Qed.

Lemma strip_padded (ws l ws' : list ascii) :
  blank ws -> blank ws' ->
  PyStr.strip (string_of_list_ascii (ws ++ l ++ ws'))
  = PyStr.strip (string_of_list_ascii l).
Proof.
  intros Hws Hws'. unfold PyStr.strip.
  rewrite !list_ascii_of_string_of_list_ascii.
  rewrite lstrip_app_blank, lstrip_app_r by done.
  destruct (PyStr.lstrip l) as [|c k] eqn:E; [done|].
  rewrite rev_app_distr, lstrip_app_blank; [done|].
  by apply Forall_rev.
Qed.

Lemma strip_blank (s : string) :
  blank (list_ascii_of_string s) -> PyStr.strip s = "".
Proof. intros H. unfold PyStr.strip. by rewrite (lstrip_blank _ H). Qed.

(** X1. An input of white space only, of any length and of any of the
    white-space characters, is answered like an empty one: the callback
    reports "Please input a value." and changes nothing else. *)
Theorem blank_input_rejected (now : string) (st : state) :
  blank (list_ascii_of_string (power_input st)) ->
  let st' := handle_add_power now st in
  last_input_status st' = Some EmptyInput
  /\ same_but_status st st'
  /\ table st' = table st.
Proof.
  intros H st'. subst st'. unfold handle_add_power.
  rewrite (strip_blank _ H). cbn. by repeat split.
Qed.

Lemma blank_input_rejected_witness :
  last_input_status
    (handle_add_power "2024-01-01 10:00:00"
       (set_power_input (String "009"%char "   ") init))
  = Some EmptyInput.
Proof.
  destruct (blank_input_rejected "2024-01-01 10:00:00"
              (set_power_input (String "009"%char "   ") init)) as [H _].
  - repeat constructor.
  - exact H.
Defined.

(** X2. White space around the input does not count: with the same text
    padded on both sides the callback gives the same table, the same
    status and the same history. *)
Theorem padding_ignored (now text : string) (ws ws' : list ascii)
    (st : state) :
  blank ws -> blank ws' ->
  let padded :=
    string_of_list_ascii (ws ++ list_ascii_of_string text ++ ws') in
  let a := handle_add_power now (set_power_input padded st) in
  let b := handle_add_power now (set_power_input text st) in
  table a = table b
  /\ last_input_status a = last_input_status b
  /\ history a = history b
  /\ accepted_value padded = accepted_value text.
Proof.
  intros Hws Hws' padded a b.
  assert (PyStr.strip padded = PyStr.strip text) as Hs.
  { subst padded. rewrite strip_padded by done.
    by rewrite string_of_list_ascii_of_string. }
  split; [|split; [|split]]; try (unfold accepted_value; by rewrite Hs);
    subst a b; unfold handle_add_power;
    cbn [power_input set_power_input]; rewrite Hs;
    destruct (String.eqb _ ""); try done;
    destruct (PyStr.py_float _) as [v|]; try done;
    destruct (_ || _); try done;
    change (table (set_power_input padded st)) with (table st);
    change (table (set_power_input text st)) with (table st);
    change (heap (set_power_input padded st)) with (heap st);
    change (heap (set_power_input text st)) with (heap st);
    by case_alloc l h E.
Qed.

Lemma padding_ignored_witness :
  table (handle_add_power "2024-01-01 10:00:00"
           (set_power_input padded_input init))
  = table (handle_add_power "2024-01-01 10:00:00"
             (set_power_input "150" init)).
Proof.
  destruct (padding_ignored "2024-01-01 10:00:00" "150"
              [" "; " "; "009"]%char [" "; "010"]%char init) as [H _].
  - repeat constructor.
  - repeat constructor.
  - exact H.
Defined.

(** ** The range gate and the validity mask *)

Lemma accepted_value_in_range (text : string) (v : float) :
  accepted_value text = Some v ->
  PyFloat.is_nan v = true \/ between POWER_MIN POWER_MAX v = true.
Proof.
  unfold accepted_value.
  destruct (PyStr.py_float _) as [w|]; [|done].
  destruct (String.eqb _ _); [done|].
  destruct (_ || _) eqn:Hg; [done|]. intros [= ->].
  rewrite <- gate_mask in Hg. unfold Series.notna in Hg.
  destruct (PyFloat.is_nan v); [by left|right].
  cbn in Hg. rewrite andb_true_r in Hg. by apply negb_false_iff.
Qed.

Lemma handle_add_power_table (now text : string) (st : state) :
  let st' := handle_add_power now (set_power_input text st) in
  table st' = table st ++ option_list (accepted_row (now, text))
  /\ history st' = history st.
Proof.
  cbn zeta. unfold handle_add_power, accepted_row, accepted_value.
  cbn [power_input set_power_input fst snd].
  destruct (String.eqb _ "") eqn:He.
  { destruct (PyStr.py_float _); cbn; by rewrite app_nil_r. }
  destruct (PyStr.py_float _) as [v|]; [|cbn; by rewrite app_nil_r].
  destruct (_ || _); [cbn; by rewrite app_nil_r|].
  change (table (set_power_input text st)) with (table st).
  change (heap (set_power_input text st)) with (heap st).
  case_alloc l h E. split; [|done].
  unfold table at 1. cbn.
  pose proof (alloc_read (table st ++ [Row (Some now) (CNum v)]) (heap st))
    as Hr.
  by rewrite E in Hr.
Qed.



(** ** More on the editable table *)

Lemma existsb_map_ext {A B} (f : B -> bool) (g : A -> bool) (h : A -> B)
    (l : list A) :
  (forall x, f (h x) = g x) -> existsb f (map h l) = existsb g l.
Proof. intros H. induction l as [|x l IH]; [done|]. cbn. by rewrite H, IH. Qed.

Lemma edit_table_history str_to_float edited as_copy st :
  history (edit_table str_to_float edited as_copy st).1 = history st
  /\ edit_mode (edit_table str_to_float edited as_copy st).1 = edit_mode st.
Proof.
  unfold edit_table, data_editor. destruct (edit_mode st) eqn:E; [|done].
  destruct as_copy; [case_alloc l h Ea|]; done.
Qed.

Lemma coerce_power_idem str_to_float (r : row) :
  coerce_power str_to_float (coerce_power str_to_float r)
  = coerce_power str_to_float r.
Proof. done. Qed.

(** X4. The warning of the editor and the gate of the input box draw the
    same line: the warning is raised exactly when some value of the edited
    table, once coerced, is one the append callback would turn down as
    below -150 or above 150. So a table made of accepted entries raises no
    warning when it is committed. *)
Theorem edit_table_warning_gate (str_to_float : string -> option float)
    (edited : DataFrame) (as_copy : bool) (st : state) :
  edit_mode st = true ->
  (edit_table str_to_float edited as_copy st).2
  = existsb (fun r => lt_int (to_numeric str_to_float (power r)) POWER_MIN
                      || gt_int (to_numeric str_to_float (power r)) POWER_MAX)
            edited
  /\ forall inputs,
      (edit_table str_to_float (omap accepted_row inputs) as_copy st).2
      = false.
Proof.
  intros Hm. split.
  - rewrite edit_table_warning by done.
    rewrite <- (map_id edited) at 1. apply existsb_map_ext.
    intros r. apply gate_mask.
  - intros inputs. rewrite edit_table_warning by done.
    induction inputs as [|[now text] inputs IH]; [done|].
    assert (omap accepted_row ((now, text) :: inputs)
            = option_list (accepted_row (now, text))
              ++ omap accepted_row inputs) as ->.
    { cbn. by destruct (accepted_row (now, text)). }
    rewrite existsb_app, IH, orb_false_r. unfold accepted_row. cbn.
    destruct (accepted_value text) as [v|] eqn:Ev; cbn; [|done].
    rewrite orb_false_r.
    destruct (accepted_value_in_range _ _ Ev) as [Hn|Hb].
    + unfold Series.notna. rewrite Hn. apply andb_false_r.
    + by rewrite Hb.
Qed.

Lemma edit_table_warning_gate_witness :
  (edit_table example_to_float edited_example true init).2 = true
  /\ (edit_table example_to_float (omap accepted_row entries) true init).2
     = false.
Proof.
  destruct (edit_table_warning_gate example_to_float edited_example true init)
    as [H H']; [reflexivity|].
  split; [rewrite H; by vm_compute|apply H'].
Defined.

(** X5. Committing again what a commit has stored changes nothing: the
    stored rows and the warning are the same, and no commit touches the
    history. The script commits the editor's table on every run, so this
    is what keeps the table steady between two interactions. *)
Theorem edit_table_idempotent (str_to_float : string -> option float)
    (edited : DataFrame) (c1 c2 : bool) (st : state) :
  edit_mode st = true ->
  let r1 := edit_table str_to_float edited c1 st in
  let r2 := edit_table str_to_float (table r1.1) c2 r1.1 in
  table r2.1 = table r1.1
  /\ r2.2 = r1.2
  /\ history r2.1 = history st.
Proof.
  intros Hm r1 r2. subst r1 r2.
  destruct (edit_table_history str_to_float edited c1 st) as [Hh1 Hm1].
  rewrite Hm in Hm1.
  destruct (edit_table_history str_to_float
              (table (edit_table str_to_float edited c1 st).1) c2
              (edit_table str_to_float edited c1 st).1) as [Hh2 _].
  rewrite Hh2, Hh1.
  rewrite !edit_table_table, !edit_table_warning by done.
  split; [|split; [|done]].
  - rewrite map_map. apply map_ext. intros r. apply coerce_power_idem.
  - by apply existsb_map_ext.
Qed.

Lemma edit_table_idempotent_witness :
  table (edit_table example_to_float
           (table (edit_table example_to_float edited_example true init).1)
           false (edit_table example_to_float edited_example true init).1).1
  = table (edit_table example_to_float edited_example true init).1.
Proof.
  destruct (edit_table_idempotent example_to_float edited_example true false
              init) as [H _]; [reflexivity|].
  exact H.
Defined.

Lemma coerce_power_columns str_to_float (d : DataFrame) :
  map date_time (map (coerce_power str_to_float) d) = map date_time d
  /\ map (to_numeric str_to_float)
         (map power (map (coerce_power str_to_float) d))
     = map (to_numeric str_to_float) (map power d).
Proof. by rewrite !map_map. Qed.

(** X6. The coercion of a commit loses nothing the views read: the
    statistics, the latest value and the chart computed from the stored
    table are those computed from the table as the operator edited it. *)
Theorem edit_table_transparent (np_sum : Series.t -> float)
    (str_to_float : string -> option float)
    (str_to_datetime : string -> option (option Z))
    (edited : DataFrame) (as_copy : bool) (st : state) (c : controls) :
  edit_mode st = true ->
  let stored := table (edit_table str_to_float edited as_copy st).1 in
  compute_power_stats np_sum str_to_float stored
  = compute_power_stats np_sum str_to_float edited
  /\ latest_val np_sum str_to_float stored = latest_val np_sum str_to_float edited
  /\ tab_visual str_to_float str_to_datetime c stored
     = tab_visual str_to_float str_to_datetime c edited.
Proof.
  intros Hm stored. subst stored. rewrite edit_table_table by done.
  destruct (coerce_power_columns str_to_float edited) as [Ht Hp].
  assert (compute_power_stats np_sum str_to_float
            (map (coerce_power str_to_float) edited)
          = compute_power_stats np_sum str_to_float edited) as Hs.
  { unfold compute_power_stats. by rewrite Hp. }
  split; [exact Hs|]. split.
  - unfold latest_val. rewrite Hs, Hp.
    by destruct edited.
  - unfold tab_visual, prepare_plot_df. by rewrite Ht, Hp.
Qed.

Lemma edit_table_transparent_witness :
  compute_power_stats Series.left_sum example_to_float
    (table (edit_table example_to_float edited_example true init).1)
  = compute_power_stats Series.left_sum example_to_float edited_example.
Proof.
  destruct (edit_table_transparent Series.left_sum example_to_float example_to_datetime
              edited_example true init default_controls) as [H _];
    [reflexivity|].
  exact H.
Defined.

(** ** The status card *)

Lemma numeric_values_nil str_to_float (d : DataFrame) :
  numeric_values str_to_float d = [] <-> numeric_rows str_to_float d = [].
Proof.
  unfold numeric_values. split; [|by intros ->].
  by destruct (numeric_rows str_to_float d).
Qed.

Lemma latest_val_last np_sum str_to_float (d : DataFrame) :
  latest_val np_sum str_to_float d = last (numeric_values str_to_float d).
Proof.
  unfold latest_val, compute_power_stats. rewrite dropna_to_numeric.
  destruct (numeric_values str_to_float d) as [|x s] eqn:E; [done|].
  cbn [Series.empty]. destruct d; [discriminate|done].
Qed.

Lemma numeric_values_app str_to_float (d d' : DataFrame) :
  numeric_values str_to_float (d ++ d')
  = numeric_values str_to_float d ++ numeric_values str_to_float d'.
Proof.
  unfold numeric_values, numeric_rows. by rewrite List.filter_app, map_app.
Qed.

Lemma power_status_label_known (v : float) :
  power_status_label (Some v) <> Unknown.
Proof.
  unfold power_status_label.
  destruct (gt_int _ 120); [discriminate|].
  destruct (gt_int _ 60); discriminate.
Qed.

(** X7. The value the status card and the "Latest Power" card show is
    the value of the last row that has a numeric value, whatever rows
    without one come after it; it is never NaN. There is none exactly
    when no row has a numeric value, and that is exactly when the status
    is "No data". *)
Theorem latest_val_spec (np_sum : Series.t -> float)
    (str_to_float : string -> option float)
    (d : DataFrame) :
  latest_val np_sum str_to_float d = last (numeric_values str_to_float d)
  /\ (latest_val np_sum str_to_float d = None <-> numeric_rows str_to_float d = [])
  /\ (forall v, latest_val np_sum str_to_float d = Some v ->
      Series.notna v = true
      /\ exists r, r ∈ d /\ to_numeric str_to_float (power r) = v)
  /\ (power_status_label (latest_val np_sum str_to_float d) = Unknown
      <-> numeric_rows str_to_float d = []).
Proof.
  rewrite latest_val_last. split; [done|].
  assert (last (numeric_values str_to_float d) = None
          <-> numeric_rows str_to_float d = []) as Hn.
  { rewrite last_None. apply numeric_values_nil. }
  split; [exact Hn|]. split.
  - intros v Hv. apply last_Some in Hv as [l' Hl'].
    assert (In v (numeric_values str_to_float d)) as Hin.
    { rewrite Hl'. apply in_or_app. right. by left. }
    unfold numeric_values, numeric_rows in Hin.
    apply in_map_iff in Hin as (r & <- & Hr).
    apply filter_In in Hr as [Hr Hok].
    split; [exact Hok|]. exists r. split; [by apply list_elem_of_In|done].
  - rewrite <- Hn. destruct (last _) as [v|]; [|done].
    split; [|done]. intros H. by apply power_status_label_known in H.
Qed.

Lemma latest_val_spec_witness :
  latest_val Series.left_sum example_to_float stats_single = Some (PyFloat.of_Z 10)
  /\ Series.notna (PyFloat.of_Z 10) = true.
Proof.
  destruct (latest_val_spec Series.left_sum example_to_float stats_single)
    as (_ & _ & H & _).
  split; [reflexivity|].
  by destruct (H (PyFloat.of_Z 10)) as [Hn _]; [reflexivity|].
Defined.

(** X8. After an entry is accepted the status card is about it: the
    latest value is the value just entered. The one exception is an
    accepted NaN, which adds a row and leaves the latest value, like the
    statistics, as it was. *)
Theorem latest_after_append (np_sum : Series.t -> float)
    (str_to_float : string -> option float)
    (now : string) (st : state) (v : float) :
  accepted_value (power_input st) = Some v ->
  let st' := handle_add_power now st in
  table st' = table st ++ [Row (Some now) (CNum v)]
  /\ latest_val np_sum str_to_float (table st')
     = (if PyFloat.is_nan v then latest_val np_sum str_to_float (table st)
        else Some v)
  /\ (PyFloat.is_nan v = true ->
      compute_power_stats np_sum str_to_float (table st')
      = compute_power_stats np_sum str_to_float (table st)).
Proof.
  intros Ha st'. subst st'.
  destruct (handle_add_power_table now (power_input st) st) as [Ht _].
  assert (set_power_input (power_input st) st = st) as Est by (by destruct st).
  rewrite Est in Ht. unfold accepted_row in Ht. cbn in Ht. rewrite Ha in Ht.
  cbn in Ht. split; [exact Ht|]. rewrite Ht.
  assert (numeric_values str_to_float (table st ++ [Row (Some now) (CNum v)])
          = numeric_values str_to_float (table st)
            ++ (if PyFloat.is_nan v then [] else [v])) as Hv.
  { rewrite numeric_values_app. f_equal.
    unfold numeric_values, numeric_rows, Series.notna. cbn.
    by destruct (PyFloat.is_nan v). }
  split.
  - rewrite !latest_val_last, Hv.
    destruct (PyFloat.is_nan v); [by rewrite app_nil_r|apply last_snoc].
  - intros Hn. rewrite Hn in Hv.
    unfold compute_power_stats. rewrite !dropna_to_numeric, Hv.
    by rewrite app_nil_r.
Qed.

Lemma latest_after_append_witness :
  latest_val Series.left_sum example_to_float
    (table (handle_add_power "2024-01-01 10:00:00"
              (set_power_input " 42.5 " init)))
  = Some (PyFloat.of_decimal false 425 (-1)).
Proof.
  destruct (latest_after_append Series.left_sum example_to_float "2024-01-01 10:00:00"
              (set_power_input " 42.5 " init)
              (PyFloat.of_decimal false 425 (-1))) as (_ & H & _);
    [by vm_compute|].
  rewrite H. reflexivity.
Defined.

(** ** Minimum and maximum *)

Lemma filter_length_le {A} (p : A -> bool) (l : list A) :
  (length (List.filter p l) <= length l)%nat.
Proof. pose proof (filter_length_split p l). lia. Qed.

(** X9. When there are statistics, the minimum and the maximum are
    values of the table: each is the value of some numeric row, no numeric
    value is below the minimum and none is above the maximum, so the
    "Range" card never shows the difference of values that are not there.
    The count is at least 1 and at most the number of rows. *)
Theorem stats_min_max (np_sum : Series.t -> float)
    (str_to_float : string -> option float)
    (d : DataFrame) (r : Stats.t) :
  compute_power_stats np_sum str_to_float d = Some r ->
  let s := numeric_values str_to_float d in
  Stats.min r ∈ s
  /\ Stats.max r ∈ s
  /\ Forall (fun x => PyFloat.ltb x (Stats.min r) = false
                      /\ PyFloat.gtb x (Stats.max r) = false) s
  /\ (1 <= Stats.count r <= length d)%nat.
Proof.
  intros Hr s.
  pose proof (count_numeric_values str_to_float d) as Hc.
  unfold compute_power_stats in Hr. rewrite dropna_to_numeric in Hr.
  fold s in Hr, Hc.
  assert (length s = length (numeric_rows str_to_float d)) as Hl
      by (subst s; unfold numeric_values; by rewrite length_map).
  destruct s as [|x s'] eqn:Es; [discriminate|].
  cbn [Series.empty] in Hr. injection Hr as <-.
  cbn [Stats.min Stats.max Stats.count]. unfold Series.min, Series.max.
  destruct (fold_min_spec s' x [x]) as [Hm1 Hm2];
    [by intros y [<-|[]]; apply SFltb_irrefl|by left|].
  destruct (fold_max_spec s' x [x]) as [HM1 HM2];
    [by intros y [<-|[]]; apply SFltb_irrefl|by left|].
  cbn zeta in *. cbn [app] in *.
  split; [by apply list_elem_of_In|]. split; [by apply list_elem_of_In|].
  split.
  - apply Forall_forall. intros y Hy. apply list_elem_of_In in Hy.
    split; [by apply Hm2|by apply HM2].
  - rewrite Hc. pose proof (filter_length_le
      (fun r => Series.notna (to_numeric str_to_float (power r))) d) as Hle.
    unfold numeric_rows in *. cbn in Hl. lia.
Qed.

Lemma stats_min_max_witness :
  exists r, compute_power_stats Series.left_sum example_to_float edited_example = Some r
            /\ Stats.min r = PyFloat.of_Z 10
            /\ Stats.max r = PyFloat.of_Z 200
            /\ Stats.min r ∈ numeric_values example_to_float edited_example.
Proof.
  eexists. split; [reflexivity|].
  split; [by vm_compute|]. split; [by vm_compute|].
  eapply (stats_min_max Series.left_sum example_to_float edited_example). reflexivity.
Defined.

(** ** What reaches the chart *)

Lemma tab_visual_Permutation str_to_float str_to_datetime
    (c : controls) (d : DataFrame) :
  tab_visual str_to_float str_to_datetime c d
  ≡ₚ map (plot_of str_to_float str_to_datetime d)
         (List.filter (kept str_to_float str_to_datetime c d) d).
Proof.
  rewrite tab_visual_eq.
  assert (forall l,
    List.filter (fun r => between (power_range c).1 (power_range c).2
                            (p_power r))
      (if sort_time c then merge_sort row_le l else l)
    ≡ₚ List.filter (fun r => between (power_range c).1 (power_range c).2
                               (p_power r)) l) as Hs.
  { intros l. destruct (sort_time c); [|done].
    apply filter_Permutation, merge_sort_Permutation. }
  rewrite Hs, filter_map_comm, filter_filter_andb. done.
Qed.

Lemma rolling_mean_length roll_mean (window min_periods : nat)
    (s : Series.t) :
  length (Series.rolling_mean roll_mean window min_periods s) = length s.
Proof. unfold Series.rolling_mean. by rewrite length_map, length_seq. Qed.

Lemma plotted_rows_notna str_to_float str_to_datetime
    (c : controls) (d : DataFrame) :
  Forall (fun r => Series.notna (p_power r) = true)
         (tab_visual str_to_float str_to_datetime c d).
Proof.
  eapply Forall_impl; [apply tab_visual_between|].
  intros r Hr. exact (between_notna _ _ _ Hr).
Qed.

(** X10. Every row that reaches the chart comes from a row of the table,
    has a value that is a number within the display range and has a time
    stamp; no row is made up and none is plotted twice over, so the chart
    has at most as many points as the table has rows. The column that is
    plotted, smoothed or not, has one value for each row of the frame. *)
Theorem plotted_rows
    (roll_mean : Series.t -> list (nat * nat) -> nat -> nat -> float)
    (str_to_float : string -> option float)
    (str_to_datetime : string -> option (option Z))
    (c : controls) (d : DataFrame) :
  let df_plot := tab_visual str_to_float str_to_datetime c d in
  Forall (fun r => between (power_range c).1 (power_range c).2 (p_power r)
                   = true
                   /\ Series.notna (p_power r) = true
                   /\ time_notna (p_date_time r) = true
                   /\ exists r0, r0 ∈ d
                        /\ r = plot_of str_to_float str_to_datetime d r0)
         df_plot
  /\ (length df_plot <= length d)%nat
  /\ length (Power_plot roll_mean c df_plot) = length df_plot.
Proof.
  intros df_plot.
  pose proof (tab_visual_Permutation str_to_float str_to_datetime c d) as Hp.
  fold df_plot in Hp. split; [|split].
  - rewrite Hp. apply Forall_forall. intros r Hr.
    apply list_elem_of_In, in_map_iff in Hr as (r0 & <- & Hr0).
    apply filter_In in Hr0 as [Hin Hk]. unfold kept in Hk.
    apply andb_true_iff in Hk as [Hk Hb].
    apply andb_true_iff in Hk as [Hv Ht].
    split; [exact Hb|]. split; [exact Hv|]. split; [exact Ht|].
    exists r0. split; [by apply list_elem_of_In|done].
  - rewrite Hp, length_map. apply filter_length_le.
  - unfold Power_plot. destruct (smoothing_enabled c).
    + by rewrite rolling_mean_length, length_map.
    + by rewrite length_map.
Qed.

Lemma lt_zero_negb_ge (x : float) :
  Series.notna x = true ->
  lt_int x 0 = negb (PyFloat.geb x (PyFloat.of_Z 0)).
Proof.
  intros Hx. unfold lt_int.
  change (PyFloat.ltb x (PyFloat.of_Z 0))
    with (PyFloat.gtb (PyFloat.of_Z 0) x).
  rewrite gtb_negb_leb; [done|done|].
  unfold Series.notna in Hx. by apply negb_true_iff.
Qed.

(** X11. The green and the red markers split the points of the chart:
    every row of the frame is in one of [df_pos] and [df_neg] and in one
    only, and a value of zero, of either sign, counts as positive. *)
Theorem markers_partition (str_to_float : string -> option float)
    (str_to_datetime : string -> option (option Z))
    (c : controls) (d : DataFrame) :
  let df_plot := tab_visual str_to_float str_to_datetime c d in
  df_neg df_plot
  = List.filter (fun r => negb (PyFloat.geb (p_power r) (PyFloat.of_Z 0)))
                df_plot
  /\ (length (df_pos df_plot) + length (df_neg df_plot)
      = length df_plot)%nat
  /\ (forall r, r ∈ df_plot -> (r ∈ df_pos df_plot <-> r ∉ df_neg df_plot))
  /\ (forall s, PyFloat.geb (S754_zero s) (PyFloat.of_Z 0) = true).
Proof.
  intros df_plot.
  assert (df_neg df_plot
          = List.filter
              (fun r => negb (PyFloat.geb (p_power r) (PyFloat.of_Z 0)))
              df_plot) as Hneg.
  { unfold df_neg. apply filter_ext_in. intros r Hr.
    apply lt_zero_negb_ge.
    pose proof (plotted_rows_notna str_to_float str_to_datetime c d) as H.
    rewrite Forall_forall in H. by apply H, list_elem_of_In. }
  split; [exact Hneg|]. split; [|split].
  - rewrite Hneg. unfold df_pos. apply filter_length_split.
  - intros r Hr. rewrite Hneg. unfold df_pos.
    apply list_elem_of_In in Hr.
    rewrite !list_elem_of_In, !filter_In.
    destruct (PyFloat.geb (p_power r) (PyFloat.of_Z 0)); cbn; split.
    + intros _ [_ H]. discriminate.
    + done.
    + intros [_ H]. discriminate.
    + intros H. exfalso. by apply H.
  - by intros [].
Qed.

Lemma markers_partition_witness :
  PlotRow (Stamp 1704103201) (PyFloat.of_Z 0)
  ∈ df_pos (tab_visual example_to_float example_to_datetime
              default_controls signed_table).
Proof.
  destruct (markers_partition example_to_float example_to_datetime
              default_controls signed_table) as (_ & _ & H & _).
  apply H.
  - vm_compute. do 2 constructor.
  - vm_compute. intros Hin.
    inversion Hin as [|? ? ? Hin']; subst. inversion Hin'.
Defined.

(** ** Export, restore and clear *)

Lemma table_allocated (st : state) :
  table st <> [] -> is_Some (heap st !! df st).
Proof.
  unfold table, read. destruct (heap st !! df st) eqn:E; [by eexists|done].
Qed.

(** What a download does to a session whose table is not empty. *)
Lemma export_facts (now filename_base : string) (st : state) :
  table st <> [] ->
  exists l1 h1 l2 h2,
    alloc (table st) (heap st) = (l1, h1)
    /\ alloc (table st) h1 = (l2, h2)
    /\ export now filename_base st
       = set_history
           (take 5 (Item (String.append filename_base " (export)") l2 now
                      :: history st))
           h2 st.
Proof.
  intros Hne. unfold export.
  destruct (empty (table st)) eqn:Ee; [by apply empty_true in Ee|].
  destruct (alloc (table st) (heap st)) as [l1 h1] eqn:E1.
  pose proof (alloc_read (table st) (heap st)) as Hr1.
  rewrite E1 in Hr1. cbn in Hr1.
  rewrite add_to_history_nonempty; cbn [heap set_history]; rewrite Hr1;
    [|done].
  destruct (alloc (table st) h1) as [l2 h2] eqn:E2.
  exists l1, h1, l2, h2. by repeat split.
Qed.

(** X12. A download of an empty table stores nothing. A download of a
    table with rows leaves the table as it is and puts in front of the
    history, cut to 5 entries, a snapshot named after the file with
    " (export)" added, stamped with the instant of the download and
    holding the rows of the table in an object of its own. *)
Theorem export_spec (now filename_base : string) (st : state) :
  (table st = [] -> export now filename_base st = st)
  /\ (table st <> [] ->
      let st' := export now filename_base st in
      table st' = table st
      /\ df st' = df st
      /\ exists it,
          history st' = take 5 (it :: history st)
          /\ name it = String.append filename_base " (export)"
          /\ timestamp it = now
          /\ snapshot st' it = table st
          /\ item_df it <> df st
          /\ heap st !! item_df it = None).
Proof.
  split.
  - intros He. unfold export. by rewrite He.
  - intros Hne st'. subst st'.
    destruct (export_facts now filename_base st Hne)
      as (l1 & h1 & l2 & h2 & E1 & E2 & ->).
    pose proof (table_allocated st Hne) as Hd.
    destruct (alloc_frame _ _ _ _ _ E1 Hd) as [Hd1 _].
    assert (is_Some (h1 !! df st)) as Hd1' by (by rewrite Hd1).
    destruct (alloc_frame _ _ _ _ _ E2 Hd1') as [Hd2 Hne2].
    pose proof (alloc_fresh (table st) h1) as Hf. rewrite E2 in Hf.
    cbn in Hf.
    pose proof (alloc_subseteq (table st) (heap st)) as Hsub.
    rewrite E1 in Hsub. cbn in Hsub.
    split; [|split; [done|]].
    + unfold table, read. cbn. by rewrite Hd2, Hd1.
    + eexists. split; [reflexivity|]. cbn.
      split; [done|]. split; [done|]. split; [|split].
      * unfold snapshot. cbn.
        pose proof (alloc_read (table st) h1) as Hr. by rewrite E2 in Hr.
      * done.
      * by eapply lookup_weaken_None.
Qed.

Lemma export_spec_witness :
  map name
    (history (export "2024-01-01 10:05:00" "power_data"
                (handle_add_power "2024-01-01 10:00:00"
                   (set_power_input "10" init))))
  = ["power_data (export)"].
Proof.
  destruct (export_spec "2024-01-01 10:05:00" "power_data"
              (handle_add_power "2024-01-01 10:00:00"
                 (set_power_input "10" init))) as [_ H].
  destruct H as (_ & _ & it & Hh & Hn & _); [by vm_compute|].
  rewrite Hh. cbn. by rewrite Hn.
Defined.

Lemma step_history_noexport str_to_float (st : state) (ev : event) :
  is_export ev = false ->
  history (step str_to_float st ev) = history st.
Proof.
  destruct ev as [now text| |edited as_copy|now fb|i|b]; cbn [step];
    intros He.
  - apply handle_add_power_table.
  - unfold clear_data. case_alloc l h E. done.
  - apply edit_table_history.
  - done.
  - unfold restore. destruct (history st !! i); [|done].
    case_alloc l h E. done.
  - done.
Qed.

Lemma run_history_noexport str_to_float (evs : list event) :
  forall st,
    forallb (fun ev => negb (is_export ev)) evs = true ->
    history (run str_to_float st evs) = history st.
Proof.
  induction evs as [|ev evs IH]; intros st He; [done|].
  cbn in He. apply andb_true_iff in He as [He1 He2].
  change (run str_to_float st (ev :: evs))
    with (run str_to_float (step str_to_float st ev) evs).
  rewrite IH by done. apply step_history_noexport.
  by apply negb_true_iff.
Qed.

(** X13. What is exported can be got back: after a download of a table
    with rows, and whatever the operator does next short of another
    download (entries, edits in place or not, clearing the table,
    restoring, locking), the first restore button brings back the rows
    the table had at the download. *)
Theorem export_restore (str_to_float : string -> option float)
    (now filename_base : string) (st : state) (evs : list event) :
  table st <> [] ->
  forallb (fun ev => negb (is_export ev)) evs = true ->
  table (restore 0 (run str_to_float (export now filename_base st) evs))
  = table st.
Proof.
  intros Hne Hev.
  destruct (export_facts now filename_base st Hne)
    as (l1 & h1 & l2 & h2 & E1 & E2 & Hex).
  pose proof (table_allocated st Hne) as Hd.
  destruct (alloc_frame _ _ _ _ _ E1 Hd) as [Hd1 _].
  assert (is_Some (h1 !! df st)) as Hd1' by (by rewrite Hd1).
  destruct (alloc_frame _ _ _ _ _ E2 Hd1') as [_ Hne2].
  set (st1 := export now filename_base st) in *.
  assert (heap st1 = h2 /\ df st1 = df st) as [Eh Ed] by (by rewrite Hex).
  assert (read (heap st1) l2 = table st) as Hsnap.
  { rewrite Eh. pose proof (alloc_read (table st) h1) as Hr.
    by rewrite E2 in Hr. }
  assert (is_Some (heap st1 !! l2)) as Hl2.
  { rewrite Eh. by eapply alloc_allocated. }
  destruct (run_frame str_to_float evs st1 l2 Hl2) as [Hfr _];
    [by rewrite Ed|].
  pose proof (run_history_noexport str_to_float evs st1 Hev) as Hh.
  set (st2 := run str_to_float st1 evs) in *.
  unfold restore. rewrite Hh, Hex. cbn [history set_history].
  cbn [take lookup list_lookup item_df].
  destruct (alloc (read (heap st2) l2) (heap st2)) as [l3 h3] eqn:E3.
  unfold table. cbn.
  pose proof (alloc_read (read (heap st2) l2) (heap st2)) as Hr.
  rewrite E3 in Hr. cbn in Hr. rewrite Hr.
  unfold read in *. by rewrite Hfr.
Qed.

Lemma export_restore_witness :
  table (restore 0
           (run example_to_float
              (export "2024-01-01 10:05:00" "power_data"
                 (handle_add_power "2024-01-01 10:00:00"
                    (set_power_input "10" init)))
              later_events))
  = [Row (Some "2024-01-01 10:00:00") (CNum (PyFloat.of_Z 10))].
Proof.
  rewrite export_restore; by vm_compute.
Defined.

(** X14. "Clear data" empties the table and nothing else: the history
    and every object of the store, the snapshots among them, are as
    before. With the table empty there are no statistics and no latest
    value, the status is "No data", the chart has no row and a download
    stores nothing. *)
Theorem clear_data_spec (np_sum : Series.t -> float)
    (str_to_float : string -> option float)
    (str_to_datetime : string -> option (option Z))
    (c : controls) (now filename_base : string) (st : state) :
  let st' := clear_data st in
  table st' = []
  /\ history st' = history st
  /\ heap st ⊆ heap st'
  /\ compute_power_stats np_sum str_to_float (table st') = None
  /\ power_status_label (latest_val np_sum str_to_float (table st')) = Unknown
  /\ tab_visual str_to_float str_to_datetime c (table st') = []
  /\ export now filename_base st' = st'.
Proof.
  intros st'. subst st'. unfold clear_data.
  destruct (alloc [] (heap st)) as [l h] eqn:E.
  pose proof (alloc_read [] (heap st)) as Hr. rewrite E in Hr. cbn in Hr.
  pose proof (alloc_subseteq [] (heap st)) as Hs. rewrite E in Hs.
  assert (table (set_status ("success", Text "All data cleared from table.")
                   (set_df l h st)) = []) as Ht by exact Hr.
  split; [exact Ht|]. split; [done|]. split; [exact Hs|].
  rewrite Ht. split; [done|]. split; [done|]. split; [done|].
  unfold export. by rewrite Ht.
Qed.

(** ** The session state between script runs *)

Lemma setdefault_preserves (k k' : string) (v v' : value)
    (ss : gmap string value) :
  ss !! k = Some v -> setdefault k' v' ss !! k = Some v.
Proof.
  intros H. unfold setdefault. destruct (ss !! k') eqn:E; [done|].
  rewrite lookup_insert_ne; [done|]. intros ->. congruence.
Qed.

Lemma setdefault_present (k : string) (v : value) (ss : gmap string value) :
  is_Some (setdefault k v ss !! k).
Proof.
  unfold setdefault. destruct (ss !! k) eqn:E; [by rewrite E|].
  rewrite lookup_insert_eq. by eexists.
Qed.

Lemma setdefault_id (k : string) (v : value) (ss : gmap string value) :
  is_Some (ss !! k) -> setdefault k v ss = ss.
Proof. intros [x Hx]. unfold setdefault. by rewrite Hx. Qed.

Lemma setdefault_mono (k k' : string) (v' : value) (ss : gmap string value) :
  is_Some (ss !! k) -> is_Some (setdefault k' v' ss !! k).
Proof. intros [x Hx]. exists x. by apply setdefault_preserves. Qed.

(** X15. The initialisation at the top of the script only fills what is
    missing: every entry the session state has keeps its value, the five
    entries the script works with are there afterwards, no object of the
    store is touched, and running it again changes nothing, so a script
    run never resets the table or the history. On an empty session state
    it gives the state of a new session. *)
Theorem init_session_state_spec (ss : gmap string value) (h : store) :
  let ss' := (init_session_state ss h).1 in
  let h' := (init_session_state ss h).2 in
  (forall k v, ss !! k = Some v -> ss' !! k = Some v)
  /\ Forall (fun k => is_Some (ss' !! k))
            ["df"; "history"; "edit_mode"; "power_input";
             "last_input_status"]
  /\ h ⊆ h'
  /\ init_session_state ss' h' = (ss', h')
  /\ state_of (init_session_state ∅ ∅).1 (init_session_state ∅ ∅).2
     = Some init.
Proof.
  intros ss' h'.
  assert (exists ss0,
    (forall k v, ss !! k = Some v -> ss0 !! k = Some v)
    /\ is_Some (ss0 !! "df") /\ h ⊆ h'
    /\ ss' = setdefault "last_input_status" (VStatus None)
               (setdefault "power_input" (VStr "")
                  (setdefault "edit_mode" (VBool true)
                     (setdefault "history" (VHistory []) ss0))))
    as (ss0 & Hpres & Hdf & Hsub & Ess).
  { subst ss' h'. unfold init_session_state.
    destruct (ss !! "df") as [x|] eqn:E.
    - exists ss. cbn. by repeat split.
    - destruct (alloc [] h) as [l h1] eqn:Ea.
      exists (<["df" := VDataFrame l]> ss). cbn. split; [|split; [|split]].
      + intros k v Hk. rewrite lookup_insert_ne; [done|].
        intros <-. congruence.
      + rewrite lookup_insert_eq. by eexists.
      + pose proof (alloc_subseteq [] h) as Hs. by rewrite Ea in Hs.
      + done. }
  assert (Forall (fun k => is_Some (ss' !! k))
            ["df"; "history"; "edit_mode"; "power_input";
             "last_input_status"]) as Hall.
  { rewrite Ess. repeat constructor.
    - by do 4 apply setdefault_mono.
    - do 3 apply setdefault_mono. apply setdefault_present.
    - do 2 apply setdefault_mono. apply setdefault_present.
    - apply setdefault_mono, setdefault_present.
    - apply setdefault_present. }
  split; [|split; [exact Hall|split; [exact Hsub|split]]].
  - intros k v Hk. rewrite Ess. do 4 apply setdefault_preserves.
    by apply Hpres.
  - rewrite Forall_forall in Hall.
    destruct (Hall "df") as [x Hx]; [set_solver|].
    unfold init_session_state. rewrite Hx.
    rewrite (setdefault_id "history") by (apply Hall; set_solver).
    rewrite (setdefault_id "edit_mode") by (apply Hall; set_solver).
    rewrite (setdefault_id "power_input") by (apply Hall; set_solver).
    by rewrite (setdefault_id "last_input_status")
      by (apply Hall; set_solver).
  - by vm_compute.
Qed.

Lemma init_session_state_spec_witness :
  (init_session_state running_session running_store).1 !! "edit_mode"
  = Some (VBool false).
Proof.
  destruct (init_session_state_spec running_session running_store)
    as [H _].
  apply H. reflexivity.
Defined.

(** ** Reachable states *)

Lemma step_history_length str_to_float (st : state) (ev : event) :
  (length (history st) <= 5)%nat ->
  (length (history (step str_to_float st ev)) <= 5)%nat.
Proof.
  intros Hl. destruct (is_export ev) eqn:He.
  - destruct ev as [| | |now fb| |]; try discriminate. cbn [step].
    unfold export. destruct (empty (table st)); [done|].
    case_alloc l1 h1 E1. unfold add_to_history. cbn.
    destruct (empty (read h1 l1)); [done|].
    case_alloc l2 h2 E2. cbn. rewrite length_take. lia.
  - by rewrite step_history_noexport.
Qed.

(** X16. Whatever the operator does, in whatever order, the history
    never holds more than 5 snapshots, the live table and every snapshot
    are objects of the store, and no snapshot shares its object with the
    live table, so that an edit in place cannot reach a snapshot. *)
Theorem reachable_invariant (str_to_float : string -> option float)
    (evs : list event) :
  let st := run str_to_float init evs in
  (length (history st) <= 5)%nat
  /\ is_Some (heap st !! df st)
  /\ Forall (fun it => is_Some (heap st !! item_df it)
                       /\ item_df it <> df st) (history st).
Proof.
  cbn zeta. split; [|apply run_wf, init_wf].
  assert (forall st, (length (history st) <= 5)%nat ->
                     (length (history (run str_to_float st evs)) <= 5)%nat)
    as H.
  { induction evs as [|ev evs IH]; intros st Hl; [done|].
    apply (IH (step str_to_float st ev)). by apply step_history_length. }
  apply H. unfold init, alloc. cbn. lia.
Qed.
